(** * Complaint service (main.go): store, request handlers and their properties

    The program keeps two Go maps, [users] (keyed by secret code) and
    [complaints] (keyed by complaint ID), and serves seven HTTP handlers that
    each run from start to end under the mutex [mu].  A handler is embedded as
    a function from the request body and the store to the response and the
    next store. *)

From stdpp Require Import gmap strings list fin_maps pretty.
From Stdlib Require Import ZArith Ascii.

Set Warnings "-register-all".

Open Scope string_scope.
Open Scope Z_scope.

(** ** Data model (main.go, lines 10-32) *)

Record Complaint := mkComplaint {
  Complaint_ID : string;
  Complaint_Title : string;
  Complaint_Summary : string;
  Complaint_Severity : Z;
  Complaint_Resolved : bool;
  Complaint_SecretCode : string
}.

Record User := mkUser {
  User_ID : string;
  User_SecretCode : string;
  User_Name : string;
  User_Email : string;
  User_Complaints : list Complaint
}.

(** The two package-level maps. *)
Record Store := mkStore {
  users : gmap string User;
  complaints : gmap string Complaint
}.

(** [make(map[string]User)], [make(map[string]Complaint)]. *)
Definition emptyStore : Store := {| users := ∅; complaints := ∅ |}.

(** Go zero values of the two structs ([var newComplaint Complaint]). *)
Definition zeroComplaint : Complaint := mkComplaint "" "" "" 0 false "".
Definition zeroUser : User := mkUser "" "" "" "" [].

(** ** encoding/json, as far as the handlers use it *)

Module Json.

(** A JSON value as the decoder sees it.  A number literal is either an
    integer literal ([JInt]) or one with a fraction or an exponent
    ([JFrac]), which no Go [int] accepts. *)
Inductive json :=
| JNull
| JBool (b : bool)
| JInt (z : Z)
| JFrac
| JStr (s : string)
| JArr (elems : list json)
| JObj (members : list (string * json)).

(** What a stretch of the request body holds: a complete JSON value, bytes
    that are not JSON, or white space. *)
Inductive token :=
| Value (j : json)
| Invalid
| Space.

(** [r.Body] is an [io.Reader]: each element is what one [Read] returns,
    and the empty list is end of file. *)
Definition Body := list (list token).

(** The errors [Decode] returns.  A body that ends inside a JSON value
    ([io.ErrUnexpectedEOF]) has no constructor of its own: such a body is an
    [Invalid] token and its error is rendered as [SyntaxError]. *)
Inductive decodeError :=
| EOF
| SyntaxError
| UnmarshalTypeError.

(** The end of an object or array is seen at its closing bracket; the end
    of any other value only at the byte after it. *)
Definition composite (j : json) : bool :=
  match j with
  | JArr _ | JObj _ => true
  | _ => false
  end.

Inductive scanResult :=
| NeedMore
| ScanError
| Complete (j : json)
| Pending (j : json).

(** The scan of [Decoder.readValue] over the bytes of one [Read]. *)
Fixpoint scanBuf (buf : list token) : scanResult :=
  match buf with
  | [] => NeedMore
  | Space :: buf' => scanBuf buf'
  | Invalid :: _ => ScanError
  | Value j :: buf' =>
      if composite j then Complete j
      else match buf' with
           | [] => Pending j
           | _ :: _ => Complete j
           end
  end.

(** [refill] until one more byte has arrived or the reader is at its end.
    This is the scanner of encoding/json as it was before its rewrite on
    top of json/v2; the rewritten decoder does not read on after a value
    that ends a read.  The two differ only after a first value [null]; for
    objects, which is what the handlers expect, they agree. *)
Fixpoint afterNextByte (r : Body) : Body :=
  match r with
  | [] => []
  | [] :: r' => afterNextByte r'
  | (_ :: _) :: r' => r'
  end.

(** [Decoder.readValue] of a fresh decoder on [r]: the value found, and
    what is left in [r] once the decoder is dropped.  Whatever a [Read]
    returned beyond the value stays in the decoder's buffer and is lost to
    later readers of [r]. *)
Fixpoint readValue (r : Body) : (decodeError + json) * Body :=
  match r with
  | [] => (inl EOF, [])
  | buf :: r' =>
      match scanBuf buf with
      | NeedMore => readValue r'
      | ScanError => (inl SyntaxError, r')
      | Complete j => (inr j, r')
      | Pending j => (inr j, afterNextByte r')
      end
  end.

(** [json.NewDecoder(r).Decode(&v)] for a target whose unmarshalling is
    [unmarshal]. *)
Definition Decode {A : Type} (unmarshal : json → option A) (r : Body)
  : (decodeError + A) * Body :=
  match readValue r with
  | (inl e, r') => (inl e, r')
  | (inr j, r') =>
      match unmarshal j with
      | Some v => (inr v, r')
      | None => (inl UnmarshalTypeError, r')
      end
  end.

(** *** Matching object keys to struct fields *)

Definition toUpper (c : ascii) : ascii :=
  let n := nat_of_ascii c in
  if (97 <=? n)%nat && (n <=? 122)%nat then ascii_of_nat (n - 32) else c.

(** [foldName]: ASCII letters to upper case; the two runes outside ASCII
    whose case orbit holds an ASCII letter, U+017F (long s) and U+212A
    (Kelvin sign), go to [S] and [K].  Any other rune folds to a rune
    outside ASCII and is left as it is, which decides the comparison with
    the (ASCII) field names of this program the same way. *)
Fixpoint foldName (s : string) : string :=
  match s with
  | EmptyString => EmptyString
  | String "197"%char (String "191"%char s') => String "S"%char (foldName s')
  | String "226"%char (String "132"%char (String "170"%char s')) =>
      String "K"%char (foldName s')
  | String c s' => String (toUpper c) (foldName s')
  end.

(** A key selects the field of that name, exactly or up to case folding.
    No two fields of one struct of this program fold to the same name, so
    the exact match is a case of the folded one. *)
Definition keyIs (key field : string) : bool :=
  bool_decide (foldName key = foldName field).

(** *** Unmarshalling into fields *)

Definition unmarshalString (j : json) (old : string) : option string :=
  match j with
  | JStr s => Some s
  | JNull => Some old
  | _ => None
  end.

(** Go's [int], taken 64 bits wide as on amd64 and arm64. *)
Definition unmarshalInt (j : json) (old : Z) : option Z :=
  match j with
  | JInt z => if (- 2 ^ 63 <=? z) && (z <? 2 ^ 63) then Some z else None
  | JNull => Some old
  | _ => None
  end.

Definition unmarshalBool (j : json) (old : bool) : option bool :=
  match j with
  | JBool b => Some b
  | JNull => Some old
  | _ => None
  end.

(** Members are taken in order, so of two members for one field the later
    wins; unknown keys are skipped. *)
Definition unmarshalObject {A : Type} (setField : A → string * json → option A)
    (j : json) (v : A) : option A :=
  match j with
  | JObj members => foldl (λ acc kv, acc ≫= λ v', setField v' kv) (Some v) members
  | JNull => Some v
  | _ => None
  end.

End Json.

Import Json.

(** ** Decoding the request structs *)

Definition setComplaintField (c : Complaint) (kv : string * json) : option Complaint :=
  let '(key, j) := kv in
  if keyIs key "id" then
    v ← unmarshalString j (Complaint_ID c);
    Some (mkComplaint v (Complaint_Title c) (Complaint_Summary c)
            (Complaint_Severity c) (Complaint_Resolved c) (Complaint_SecretCode c))
  else if keyIs key "title" then
    v ← unmarshalString j (Complaint_Title c);
    Some (mkComplaint (Complaint_ID c) v (Complaint_Summary c)
            (Complaint_Severity c) (Complaint_Resolved c) (Complaint_SecretCode c))
  else if keyIs key "summary" then
    v ← unmarshalString j (Complaint_Summary c);
    Some (mkComplaint (Complaint_ID c) (Complaint_Title c) v
            (Complaint_Severity c) (Complaint_Resolved c) (Complaint_SecretCode c))
  else if keyIs key "severity" then
    v ← unmarshalInt j (Complaint_Severity c);
    Some (mkComplaint (Complaint_ID c) (Complaint_Title c) (Complaint_Summary c)
            v (Complaint_Resolved c) (Complaint_SecretCode c))
  else if keyIs key "resolved" then
    v ← unmarshalBool j (Complaint_Resolved c);
    Some (mkComplaint (Complaint_ID c) (Complaint_Title c) (Complaint_Summary c)
            (Complaint_Severity c) v (Complaint_SecretCode c))
  else if keyIs key "SecretCode" then
    v ← unmarshalString j (Complaint_SecretCode c);
    Some (mkComplaint (Complaint_ID c) (Complaint_Title c) (Complaint_Summary c)
            (Complaint_Severity c) (Complaint_Resolved c) v)
  else Some c.

(** [Decode(&newComplaint)] with [var newComplaint Complaint]. *)
Definition unmarshalComplaint (j : json) : option Complaint :=
  unmarshalObject setComplaintField j zeroComplaint.

(** The [complaints] member of a user.  [registerHandler] replaces the
    decoded slice before it is read (line 98), so all that can be observed
    of it is whether its elements decode. *)
Definition unmarshalComplaints (j : json) (old : list Complaint) : option (list Complaint) :=
  match j with
  | JArr elems => mapM unmarshalComplaint elems
  | JNull => Some old
  | _ => None
  end.

Definition setUserField (u : User) (kv : string * json) : option User :=
  let '(key, j) := kv in
  if keyIs key "id" then
    v ← unmarshalString j (User_ID u);
    Some (mkUser v (User_SecretCode u) (User_Name u) (User_Email u) (User_Complaints u))
  else if keyIs key "secretCode" then
    v ← unmarshalString j (User_SecretCode u);
    Some (mkUser (User_ID u) v (User_Name u) (User_Email u) (User_Complaints u))
  else if keyIs key "name" then
    v ← unmarshalString j (User_Name u);
    Some (mkUser (User_ID u) (User_SecretCode u) v (User_Email u) (User_Complaints u))
  else if keyIs key "email" then
    v ← unmarshalString j (User_Email u);
    Some (mkUser (User_ID u) (User_SecretCode u) (User_Name u) v (User_Complaints u))
  else if keyIs key "complaints" then
    v ← unmarshalComplaints j (User_Complaints u);
    Some (mkUser (User_ID u) (User_SecretCode u) (User_Name u) (User_Email u) v)
  else Some u.

(** [Decode(&newUser)] with [var newUser User]. *)
Definition unmarshalUser (j : json) : option User :=
  unmarshalObject setUserField j zeroUser.

(** The anonymous [struct { SecretCode string `json:"secretCode"` }]; a
    struct of one string field is kept as that string. *)
Definition setSecretCode (v : string) (kv : string * json) : option string :=
  let '(key, j) := kv in
  if keyIs key "secretCode" then unmarshalString j v else Some v.

Definition unmarshalSecretCode (j : json) : option string :=
  unmarshalObject setSecretCode j "".

(** The anonymous [struct { ID string `json:"id"` }]. *)
Definition setID (v : string) (kv : string * json) : option string :=
  let '(key, j) := kv in
  if keyIs key "id" then unmarshalString j v else Some v.

Definition unmarshalID (j : json) : option string :=
  unmarshalObject setID j "".

(** ** Responses (what a handler leaves in its [http.ResponseWriter]) *)

Inductive errorText :=
| Literal (msg : string)
| ErrorOf (err : decodeError).

Inductive Payload :=
| NoBody
| ErrorBody (errMsg : errorText)
| UserBody (u : User)
| ComplaintBody (c : Complaint)
| ComplaintsBody (cs : list Complaint).

Record Response := mkResponse {
  statusCode : Z;
  payload : Payload
}.

Definition StatusOK : Z := 200.
Definition StatusCreated : Z := 201.
Definition StatusNoContent : Z := 204.
Definition StatusBadRequest : Z := 400.
Definition StatusUnauthorized : Z := 401.
Definition StatusNotFound : Z := 404.

(** [writeError]: the status code and the JSON object [{"error": errMsg}]. *)
Definition writeError (errMsg : errorText) (statusCode : Z) : Response :=
  mkResponse statusCode (ErrorBody errMsg).

(** [json.NewEncoder(w).Encode(v)] with no header written before: 200. *)
Definition Encode (v : Payload) : Response := mkResponse StatusOK v.

(** [w.WriteHeader(code)] and nothing else. *)
Definition WriteHeader (statusCode : Z) : Response := mkResponse statusCode NoBody.

(** ** The handlers *)

Definition generateUniqueID (s : Store) : string :=
  pretty (size (complaints s) + 1)%nat.

Definition loginHandler (body : Body) (s : Store) : Response * Store :=
  match (Decode unmarshalSecretCode body).1 with
  | inl err => (writeError (ErrorOf err) StatusBadRequest, s)
  | inr credentials =>
      match users s !! credentials with
      | None => (writeError (Literal "User not found") StatusNotFound, s)
      | Some user => (Encode (UserBody user), s)
      end
  end.

Definition registerHandler (body : Body) (s : Store) : Response * Store :=
  match (Decode unmarshalUser body).1 with
  | inl err => (writeError (ErrorOf err) StatusBadRequest, s)
  | inr newUser =>
      match users s !! User_SecretCode newUser with
      | Some _ => (writeError (Literal "Secret code already in use") StatusBadRequest, s)
      | None =>
          let newUser := mkUser (generateUniqueID s) (User_SecretCode newUser)
                           (User_Name newUser) (User_Email newUser) [] in
          (Encode (UserBody newUser),
           mkStore (<[User_SecretCode newUser := newUser]> (users s)) (complaints s))
      end
  end.

Definition submitComplaintHandler (body : Body) (s : Store) : Response * Store :=
  match (Decode unmarshalComplaint body).1 with
  | inl err => (writeError (ErrorOf err) StatusBadRequest, s)
  | inr newComplaint =>
      match users s !! Complaint_SecretCode newComplaint with
      | None => (writeError (Literal "User not found") StatusNotFound, s)
      | Some user =>
          let newComplaint :=
            mkComplaint (generateUniqueID s) (Complaint_Title newComplaint)
              (Complaint_Summary newComplaint) (Complaint_Severity newComplaint)
              (Complaint_Resolved newComplaint) (Complaint_SecretCode newComplaint) in
          let complaints' := <[Complaint_ID newComplaint := newComplaint]> (complaints s) in
          let user := mkUser (User_ID user) (User_SecretCode user) (User_Name user)
                        (User_Email user) (User_Complaints user ++ [newComplaint]) in
          (WriteHeader StatusCreated,
           mkStore (<[Complaint_SecretCode newComplaint := user]> (users s)) complaints')
      end
  end.

Definition getAllComplaintsForUserHandler (body : Body) (s : Store) : Response * Store :=
  match (Decode unmarshalSecretCode body).1 with
  | inl err => (writeError (ErrorOf err) StatusBadRequest, s)
  | inr user =>
      match users s !! user with
      | None => (writeError (Literal "User not found") StatusNotFound, s)
      | Some userDetails => (Encode (ComplaintsBody (User_Complaints userDetails)), s)
      end
  end.

(** [for _, user := range users] visits the entries of the map in an order
    the Go runtime picks anew each time; [order] is the order of this run,
    some arrangement of [map_to_list (users s)]. *)
Definition getAllComplaintsForAdminHandler (order : list (string * User))
    (body : Body) (s : Store) : Response * Store :=
  match (Decode unmarshalSecretCode body).1 with
  | inl err => (writeError (ErrorOf err) StatusBadRequest, s)
  | inr adminCredentials =>
      if bool_decide (adminCredentials ≠ "admin") then
        (writeError (Literal "Unauthorized") StatusUnauthorized, s)
      else
        let allComplaints :=
          foldl (λ allComplaints kv, (allComplaints ++ User_Complaints kv.2)%list) [] order in
        (Encode (ComplaintsBody allComplaints), s)
  end.

Definition viewComplaintHandler (body : Body) (s : Store) : Response * Store :=
  match (Decode unmarshalID body).1 with
  | inl err => (writeError (ErrorOf err) StatusBadRequest, s)
  | inr complaint =>
      match complaints s !! complaint with
      | None => (writeError (Literal "Complaint not found") StatusNotFound, s)
      | Some complaintDetails =>
          match users s !! Complaint_SecretCode complaintDetails with
          | None => (writeError (Literal "User not found") StatusNotFound, s)
          | Some _ => (Encode (ComplaintBody complaintDetails), s)
          end
      end
  end.

(** Both decoders are made on the same [r.Body]: the second one reads what
    the first one left in the reader. *)
Definition resolveComplaintHandler (body : Body) (s : Store) : Response * Store :=
  match Decode unmarshalID body with
  | (inl err, _) => (writeError (ErrorOf err) StatusBadRequest, s)
  | (inr complaint, body') =>
      match (Decode unmarshalSecretCode body').1 with
      | inl err => (writeError (ErrorOf err) StatusBadRequest, s)
      | inr adminCredentials =>
          if bool_decide (adminCredentials ≠ "admin") then
            (writeError (Literal "Unauthorized") StatusUnauthorized, s)
          else
            match complaints s !! complaint with
            | None => (writeError (Literal "Complaint not found") StatusNotFound, s)
            | Some complaintDetails =>
                let complaintDetails :=
                  mkComplaint (Complaint_ID complaintDetails) (Complaint_Title complaintDetails)
                    (Complaint_Summary complaintDetails) (Complaint_Severity complaintDetails)
                    true (Complaint_SecretCode complaintDetails) in
                (WriteHeader StatusNoContent,
                 mkStore (users s) (<[complaint := complaintDetails]> (complaints s)))
            end
      end
  end.

(** ** The server: routes of [main] and the states it can reach *)

Inductive Request :=
| Login (body : Body)
| Register (body : Body)
| SubmitComplaint (body : Body)
| GetAllComplaintsForUser (body : Body)
| GetAllComplaintsForAdmin (order : list (string * User)) (body : Body)
| ViewComplaint (body : Body)
| ResolveComplaint (body : Body).

(** The seven [http.HandleFunc] routes. *)
Definition serve (req : Request) (s : Store) : Response * Store :=
  match req with
  | Login body => loginHandler body s
  | Register body => registerHandler body s
  | SubmitComplaint body => submitComplaintHandler body s
  | GetAllComplaintsForUser body => getAllComplaintsForUserHandler body s
  | GetAllComplaintsForAdmin order body => getAllComplaintsForAdminHandler order body s
  | ViewComplaint body => viewComplaintHandler body s
  | ResolveComplaint body => resolveComplaintHandler body s
  end.

(** A request can be served in [s] when the iteration order it carries is
    an order of the users of [s]. *)
Definition admissible (req : Request) (s : Store) : Prop :=
  match req with
  | GetAllComplaintsForAdmin order _ => order ≡ₚ map_to_list (users s)
  | _ => True
  end.

(** The mutex makes the handlers run one after the other. *)
Definition run (reqs : list Request) (s : Store) : Store :=
  foldl (λ s req, (serve req s).2) s reqs.

Inductive reachable : Store → Prop :=
| reachable_empty : reachable emptyStore
| reachable_serve req s :
    reachable s → admissible req s → reachable (serve req s).2.

Definition isSubmit (req : Request) : bool :=
  match req with
  | SubmitComplaint _ => true
  | _ => false
  end.

(** [complaintDetails.Resolved = true] on a copy of the entry. *)
Definition resolved (c : Complaint) : Complaint :=
  mkComplaint (Complaint_ID c) (Complaint_Title c) (Complaint_Summary c)
    (Complaint_Severity c) true (Complaint_SecretCode c).

(** Every canonical complaint is owned by a registered user. *)
Definition ownersExist (s : Store) : Prop :=
  ∀ id c, complaints s !! id = Some c → is_Some (users s !! Complaint_SecretCode c).

(** Every canonical complaint is stored under its own ID, and its owner's
    list holds a copy of it that differs at most in the resolved flag. *)
Definition copiesExist (s : Store) : Prop :=
  ∀ id c, complaints s !! id = Some c →
    Complaint_ID c = id ∧
    ∃ u x, users s !! Complaint_SecretCode c = Some u ∧
           x ∈ User_Complaints u ∧ resolved x = resolved c.

Definition isSpace (t : token) : bool :=
  match t with
  | Space => true
  | _ => false
  end.

(** The tokens of a body other than white space, across all reads. *)
Definition tokens (r : Body) : list token :=
  filter (λ t, negb (isSpace t)) (concat r).

(** Whether an object sets the [resolved] field of a complaint to [true]
    in one of its members. *)
Definition setsResolvedTrue (members : list (string * json)) : bool :=
  existsb (λ kv, keyIs kv.1 "resolved" &&
                 match kv.2 with JBool true => true | _ => false end) members.

(** ** Sample requests and stores *)

Module Sample.

(** [{"secretCode": code}] as a single read. *)
Definition secretCodeBody (code : string) : Body :=
  [[Value (JObj [("secretCode", JStr code)])]].

(** [{"id": id}] as a single read. *)
Definition idBody (id : string) : Body :=
  [[Value (JObj [("id", JStr id)])]].

Definition registerBody (code name : string) : Body :=
  [[Value (JObj [("secretCode", JStr code); ("name", JStr name);
                 ("email", JStr "user@example.org")])]].

Definition complaintBody (code : string) (severity : Z) : Body :=
  [[Value (JObj [("title", JStr "Noise"); ("summary", JStr "Loud at night");
                 ("severity", JInt severity); ("SecretCode", JStr code)])]].

(** A complaint sent with ["resolved": true]. *)
Definition resolvedComplaintBody (code : string) : Body :=
  [[Value (JObj [("title", JStr "Noise"); ("resolved", JBool true);
                 ("SecretCode", JStr code)])]].

(** [{"id": id, "secretCode": code}]: one object, one read. *)
Definition resolveBody (id code : string) : Body :=
  [[Value (JObj [("id", JStr id); ("secretCode", JStr code)])]].

(** [{"id": id}] and [{"secretCode": code}] arriving in two reads: two
    chunks of a chunked request, or two objects with more white space
    between them than the decoder's first read of 512 bytes takes. *)
Definition resolveBodySplit (id code : string) : Body :=
  [[Value (JObj [("id", JStr id)])]; [Value (JObj [("secretCode", JStr code)])]].

(** User [c1] registered. *)
Definition store1 : Store :=
  (serve (Register (registerBody "c1" "A")) emptyStore).2.

(** User [c1] registered, one complaint of severity 5 submitted. *)
Definition store2 : Store :=
  (serve (SubmitComplaint (complaintBody "c1" 5)) store1).2.

End Sample.

(** ** Further invariants of the store *)

(** The keys of the canonical table are the decimals of 1 to
    [len(complaints)]. *)
Definition complaintKeys (s : Store) : Prop :=
  ∀ id, is_Some (complaints s !! id) ↔
        ∃ k : nat, (1 ≤ k ≤ size (complaints s))%nat ∧ id = pretty k.

(** A user is stored under the user's own secret code, and the complaints
    of the user's list carry that secret code. *)
Definition usersKeyed (s : Store) : Prop :=
  ∀ code u, users s !! code = Some u →
    User_SecretCode u = code ∧
    ∀ x, x ∈ User_Complaints u → Complaint_SecretCode x = code.

(** Every complaint of a user's list has its canonical entry: the
    complaint itself, or its resolved copy. *)
Definition copiesCanonical (s : Store) : Prop :=
  ∀ code u x, users s !! code = Some u → x ∈ User_Complaints u →
    ∃ c, complaints s !! Complaint_ID x = Some c ∧ (c = x ∨ c = resolved x).

(** The complaints of all the users' lists, in the order of [map_to_list]. *)
Definition embeddedComplaints (s : Store) : list Complaint :=
  map_to_list (users s) ≫= λ kv, User_Complaints kv.2.

(** The IDs in the users' lists are the keys of the canonical table, each
    once. *)
Definition listedOnce (s : Store) : Prop :=
  Complaint_ID <$> embeddedComplaints s ≡ₚ (map_to_list (complaints s)).*1.

(** [r.Body] of a request. *)
Definition requestBody (req : Request) : Body :=
  match req with
  | Login body | Register body | SubmitComplaint body
  | GetAllComplaintsForUser body | GetAllComplaintsForAdmin _ body
  | ViewComplaint body | ResolveComplaint body => body
  end.

(** What kind of body a response carries. *)
Inductive bodyKind :=
| KNone
| KError
| KUser
| KComplaint
| KComplaints.

Definition kindOf (p : Payload) : bodyKind :=
  match p with
  | NoBody => KNone
  | ErrorBody _ => KError
  | UserBody _ => KUser
  | ComplaintBody _ => KComplaint
  | ComplaintsBody _ => KComplaints
  end.

(** The status codes each handler writes, with the kind of body written
    along with each. *)
Definition answersOf (req : Request) : list (Z * bodyKind) :=
  match req with
  | Login _ => [(200, KUser); (400, KError); (404, KError)]
  | Register _ => [(200, KUser); (400, KError)]
  | SubmitComplaint _ => [(201, KNone); (400, KError); (404, KError)]
  | GetAllComplaintsForUser _ => [(200, KComplaints); (400, KError); (404, KError)]
  | GetAllComplaintsForAdmin _ _ => [(200, KComplaints); (400, KError); (401, KError)]
  | ViewComplaint _ => [(200, KComplaint); (400, KError); (404, KError)]
  | ResolveComplaint _ => [(204, KNone); (400, KError); (401, KError); (404, KError)]
  end.

(** Whether an object has a member for the field [field]. *)
Definition hasMember (field : string) (members : list (string * json)) : bool :=
  existsb (λ kv, keyIs kv.1 field) members.

(** The answers of the server to a sequence of requests served one after
    the other, each paired with its request. *)
Fixpoint answersTo (reqs : list Request) (s : Store) : list (Request * Response) :=
  match reqs with
  | [] => []
  | req :: reqs' => (req, (serve req s).1) :: answersTo reqs' (serve req s).2
  end.

(** A submission answered 201; a registration answered 200. *)
Definition created (a : Request * Response) : bool :=
  isSubmit a.1 && (statusCode a.2 =? 201).

Definition isRegister (req : Request) : bool :=
  match req with
  | Register _ => true
  | _ => false
  end.

Definition registered (a : Request * Response) : bool :=
  isRegister a.1 && (statusCode a.2 =? 200).

(** Every user ID is the decimal of a number from 1 to [len(complaints)+1]. *)
Definition userIDsBounded (s : Store) : Prop :=
  ∀ code u, users s !! code = Some u →
    ∃ k : nat, (1 ≤ k ≤ size (complaints s) + 1)%nat ∧ User_ID u = pretty k.

(** * Properties *)

(** ** The decoder *)

Lemma Decode_inr {A : Type} (unmarshal : json → option A) (r : Body) (v : A) :
  (Decode unmarshal r).1 = inr v →
  ∃ j, (readValue r).1 = inr j ∧ unmarshal j = Some v.
Proof.
  unfold Decode. destruct (readValue r) as [[e|j] r']; simpl; [done|].
  destruct (unmarshal j) eqn:Hj; simpl; [|done].
  intros [= ->]. eauto.
Qed.

(** The decoder on small inputs. *)

Example keys_match_up_to_case :
  unmarshalSecretCode (JObj [("SECRETCODE", JStr "c1")]) = Some "c1" ∧
  unmarshalComplaint (JObj [("secretcode", JStr "c1"); ("Severity", JInt 3)]) =
    Some (mkComplaint "" "" "" 3 false "c1").
Proof. split; reflexivity. Qed.

Example long_s_matches_s :
  unmarshalSecretCode
    (JObj [(String "197" (String "191" "ecretCode"), JStr "c1")]) = Some "c1".
Proof. reflexivity. Qed.

Example later_member_wins :
  unmarshalID (JObj [("id", JStr "1"); ("id", JStr "2")]) = Some "2".
Proof. reflexivity. Qed.

Example null_leaves_zero_value :
  unmarshalUser JNull = Some zeroUser ∧
  unmarshalUser (JObj [("name", JNull); ("complaints", JNull)]) = Some zeroUser.
Proof. split; reflexivity. Qed.

Example wrong_type_is_an_error :
  (Decode unmarshalComplaint [[Value (JObj [("severity", JStr "5")])]]).1 =
    inl UnmarshalTypeError ∧
  (Decode unmarshalComplaint [[Value (JObj [("severity", JInt (2 ^ 63))])]]).1 =
    inl UnmarshalTypeError ∧
  (Decode unmarshalUser [[Value (JObj [("complaints", JArr [JInt 1])])]]).1 =
    inl UnmarshalTypeError ∧
  (Decode unmarshalID [[Value (JStr "1")]]).1 = inl UnmarshalTypeError.
Proof. repeat split; reflexivity. Qed.

Example empty_body_is_EOF :
  (Decode unmarshalID []).1 = inl EOF ∧
  (Decode unmarshalID [[Space]; []; [Space; Space]]).1 = inl EOF.
Proof. split; reflexivity. Qed.

(** What a read held beyond the value is gone with the decoder; a later
    read is still there. *)
Example decoder_keeps_its_buffer :
  Decode unmarshalID [[Value (JObj [("id", JStr "1")]); Value JNull]; [Value JNull]] =
    (inr "1", [[Value JNull]]).
Proof. reflexivity. Qed.

(** A value other than an object or array that ends a read makes the
    decoder read on for the byte after it. *)
Example scalar_reads_ahead :
  Decode unmarshalID [[Value JNull]; [Space]; [Value JNull]] = (inr "", [[Value JNull]]) ∧
  Decode unmarshalID [[Value JNull; Space]; [Space]; [Value JNull]] =
    (inr "", [[Space]; [Value JNull]]).
Proof. split; reflexivity. Qed.

(** ** What each handler does on each of its paths *)

Lemma registerHandler_ok (body : Body) (s : Store) (newUser : User) :
  (Decode unmarshalUser body).1 = inr newUser →
  users s !! User_SecretCode newUser = None →
  let u := mkUser (generateUniqueID s) (User_SecretCode newUser)
             (User_Name newUser) (User_Email newUser) [] in
  registerHandler body s =
    (Encode (UserBody u), mkStore (<[User_SecretCode newUser := u]> (users s)) (complaints s)).
Proof. intros Hd Hn. unfold registerHandler. by rewrite Hd, Hn. Qed.

Lemma registerHandler_taken (body : Body) (s : Store) (newUser u : User) :
  (Decode unmarshalUser body).1 = inr newUser →
  users s !! User_SecretCode newUser = Some u →
  registerHandler body s =
    (writeError (Literal "Secret code already in use") StatusBadRequest, s).
Proof. intros Hd Hn. unfold registerHandler. by rewrite Hd, Hn. Qed.

Lemma submitComplaintHandler_ok (body : Body) (s : Store) (newComplaint : Complaint)
    (user : User) :
  (Decode unmarshalComplaint body).1 = inr newComplaint →
  users s !! Complaint_SecretCode newComplaint = Some user →
  let c := mkComplaint (generateUniqueID s) (Complaint_Title newComplaint)
             (Complaint_Summary newComplaint) (Complaint_Severity newComplaint)
             (Complaint_Resolved newComplaint) (Complaint_SecretCode newComplaint) in
  let user' := mkUser (User_ID user) (User_SecretCode user) (User_Name user)
                 (User_Email user) (User_Complaints user ++ [c]) in
  submitComplaintHandler body s =
    (WriteHeader StatusCreated,
     mkStore (<[Complaint_SecretCode newComplaint := user']> (users s))
             (<[generateUniqueID s := c]> (complaints s))).
Proof. intros Hd Hu. unfold submitComplaintHandler. by rewrite Hd, Hu. Qed.

Lemma submitComplaintHandler_unknown (body : Body) (s : Store) (newComplaint : Complaint) :
  (Decode unmarshalComplaint body).1 = inr newComplaint →
  users s !! Complaint_SecretCode newComplaint = None →
  submitComplaintHandler body s =
    (writeError (Literal "User not found") StatusNotFound, s).
Proof. intros Hd Hu. unfold submitComplaintHandler. by rewrite Hd, Hu. Qed.

Lemma viewComplaintHandler_ok (body : Body) (s : Store) (id : string) (c : Complaint) :
  (Decode unmarshalID body).1 = inr id →
  complaints s !! id = Some c →
  is_Some (users s !! Complaint_SecretCode c) →
  viewComplaintHandler body s = (Encode (ComplaintBody c), s).
Proof.
  intros Hd Hc [u Hu]. unfold viewComplaintHandler. by rewrite Hd, Hc, Hu.
Qed.

Lemma loginHandler_ok (body : Body) (s : Store) (code : string) (u : User) :
  (Decode unmarshalSecretCode body).1 = inr code →
  users s !! code = Some u →
  loginHandler body s = (Encode (UserBody u), s).
Proof. intros Hd Hu. unfold loginHandler. by rewrite Hd, Hu. Qed.

Lemma getAllComplaintsForUserHandler_ok (body : Body) (s : Store) (code : string) (u : User) :
  (Decode unmarshalSecretCode body).1 = inr code →
  users s !! code = Some u →
  getAllComplaintsForUserHandler body s = (Encode (ComplaintsBody (User_Complaints u)), s).
Proof. intros Hd Hu. unfold getAllComplaintsForUserHandler. by rewrite Hd, Hu. Qed.

(** The handlers that only read. *)
Lemma loginHandler_store (body : Body) (s : Store) : (loginHandler body s).2 = s.
Proof. unfold loginHandler. by repeat case_match. Qed.

Lemma getAllComplaintsForUserHandler_store (body : Body) (s : Store) :
  (getAllComplaintsForUserHandler body s).2 = s.
Proof. unfold getAllComplaintsForUserHandler. by repeat case_match. Qed.

Lemma getAllComplaintsForAdminHandler_store order (body : Body) (s : Store) :
  (getAllComplaintsForAdminHandler order body s).2 = s.
Proof. unfold getAllComplaintsForAdminHandler. by repeat case_match. Qed.

Lemma viewComplaintHandler_store (body : Body) (s : Store) :
  (viewComplaintHandler body s).2 = s.
Proof. unfold viewComplaintHandler. by repeat case_match. Qed.

(** [resolveComplaintHandler] either fails and leaves the store, or answers
    204 and replaces one canonical entry by its resolved copy. *)
Lemma resolveComplaintHandler_cases (body : Body) (s : Store) :
  (statusCode (resolveComplaintHandler body s).1 ≠ StatusNoContent ∧
   (resolveComplaintHandler body s).2 = s) ∨
  (∃ id c,
     (Decode unmarshalID body).1 = inr id ∧
     (Decode unmarshalSecretCode (Decode unmarshalID body).2).1 = inr "admin" ∧
     complaints s !! id = Some c ∧
     resolveComplaintHandler body s =
       (WriteHeader StatusNoContent,
        mkStore (users s) (<[id := resolved c]> (complaints s)))).
Proof.
  unfold resolveComplaintHandler.
  destruct (Decode unmarshalID body) as [[e|id] body'] eqn:Hd1; simpl; [by left|].
  destruct (Decode unmarshalSecretCode body') as [[e|code] body''] eqn:Hd2; simpl;
    [by left|].
  case_bool_decide as Hadmin; simpl; [by left|].
  destruct (complaints s !! id) as [c|] eqn:Hc; simpl; [|by left].
  right. exists id, c. split_and!; try done.
  by rewrite Hadmin.
Qed.

(** The failing paths of [resolveComplaintHandler], in the order of the
    code: 400 when either decoder fails, 401 for a secret code other than
    "admin", 404 for an ID that keys no complaint. *)
Lemma resolveComplaintHandler_failures (body : Body) (s : Store) :
  let res := Decode unmarshalID body in
  match res.1 with
  | inl err =>
      resolveComplaintHandler body s = (mkResponse 400 (ErrorBody (ErrorOf err)), s)
  | inr id =>
      match (Decode unmarshalSecretCode res.2).1 with
      | inl err =>
          resolveComplaintHandler body s = (mkResponse 400 (ErrorBody (ErrorOf err)), s)
      | inr code =>
          (code ≠ "admin" →
           resolveComplaintHandler body s =
             (mkResponse 401 (ErrorBody (Literal "Unauthorized")), s)) ∧
          (code = "admin" → complaints s !! id = None →
           resolveComplaintHandler body s =
             (mkResponse 404 (ErrorBody (Literal "Complaint not found")), s))
      end
  end.
Proof.
  unfold resolveComplaintHandler.
  destruct (Decode unmarshalID body) as [[e|id] body'] eqn:Hd1; simpl; [done|].
  destruct (Decode unmarshalSecretCode body') as [[e|code] body''] eqn:Hd2; simpl;
    [done|].
  split.
  - intros Hne. by rewrite bool_decide_eq_true_2.
  - intros -> ->. done.
Qed.

(** ** Invariants of the reachable stores *)

Create Rewrite HintDb read_only.

#[local] Hint Rewrite loginHandler_store getAllComplaintsForUserHandler_store
  getAllComplaintsForAdminHandler_store viewComplaintHandler_store : read_only.

(** Case analysis on the route; the four handlers that only read are done
    with at once. *)
Ltac by_request req :=
  destruct req as [b|b|b|b|order b|b|b]; simpl;
  autorewrite with read_only; try done.

Lemma serve_ownersExist (req : Request) (s : Store) :
  ownersExist s → ownersExist (serve req s).2.
Proof.
  intros Hinv. by_request req.
  - unfold registerHandler. repeat case_match; simpl; try done.
    intros id0 c0 Hc0; simpl in *. apply lookup_insert_is_Some'. right. eauto.
  - unfold submitComplaintHandler. repeat case_match; simpl; try done.
    intros id0 c0 Hc0; simpl in *. apply lookup_insert_is_Some'.
    apply lookup_insert_Some in Hc0 as [[_ <-]|[_ Hc0]]; simpl; [by left|].
    right. eauto.
  - destruct (resolveComplaintHandler_cases b s) as [[_ ->]|(id & c & _ & _ & Hc & ->)];
      [done|].
    intros id' c' Hc'; simpl in *.
    apply lookup_insert_Some in Hc' as [[_ <-]|[_ Hc']]; simpl; eauto.
Qed.

Lemma reachable_ownersExist (s : Store) : reachable s → ownersExist s.
Proof.
  induction 1 as [|req s _ IH _]; [|by apply serve_ownersExist].
  intros id c Hc. simpl in Hc. by rewrite lookup_empty in Hc.
Qed.

Lemma serve_copiesExist (req : Request) (s : Store) :
  copiesExist s → copiesExist (serve req s).2.
Proof.
  intros Hinv. by_request req.
  - unfold registerHandler.
    destruct (Decode unmarshalUser b).1 as [e|newUser]; simpl; [done|].
    destruct (users s !! User_SecretCode newUser) eqn:Hfresh; simpl; [done|].
    intros id c Hc; simpl in *.
    destruct (Hinv id c Hc) as (Hid & u & x & Hu & Hx & Hcopy).
    split; [done|]. exists u, x. split_and!; try done.
    rewrite lookup_insert_ne; [done|]. congruence.
  - unfold submitComplaintHandler.
    destruct (Decode unmarshalComplaint b).1 as [e|newComplaint]; simpl; [done|].
    destruct (users s !! Complaint_SecretCode newComplaint) as [user|] eqn:Huser;
      simpl; [|done].
    intros id c Hc; simpl in *.
    apply lookup_insert_Some in Hc as [[<- <-]|[_ Hc]]; simpl.
    + split; [done|]. eexists _, _. split_and!; [apply lookup_insert_eq| |done].
      simpl. apply elem_of_app. right. by apply list_elem_of_singleton.
    + destruct (Hinv id c Hc) as (Hid & u & x & Hu & Hx & Hcopy). split; [done|].
      destruct (decide (Complaint_SecretCode newComplaint = Complaint_SecretCode c))
        as [Heq|Hne].
      * rewrite Heq, Hu in Huser. injection Huser as <-.
        eexists _, x. rewrite <- Heq. split_and!; [apply lookup_insert_eq| |done].
        simpl. apply elem_of_app. by left.
      * exists u, x. by rewrite lookup_insert_ne.
  - destruct (resolveComplaintHandler_cases b s) as [[_ ->]|(id & c & _ & _ & Hc & ->)];
      [done|].
    intros id' c' Hc'; simpl in *.
    apply lookup_insert_Some in Hc' as [[<- <-]|[_ Hc']]; simpl; [|by apply Hinv].
    destruct (Hinv id c Hc) as (Hid & u & x & Hu & Hx & Hcopy).
    split; [done|]. by exists u, x.
Qed.

Lemma reachable_copiesExist (s : Store) : reachable s → copiesExist s.
Proof.
  induction 1 as [|req s _ IH _]; [|by apply serve_copiesExist].
  intros id c Hc. simpl in Hc. by rewrite lookup_empty in Hc.
Qed.

(** Only [submitComplaintHandler] changes how many complaints there are. *)
Lemma serve_size_complaints (req : Request) (s : Store) :
  isSubmit req = false →
  size (complaints (serve req s).2) = size (complaints s).
Proof.
  intros Hreq. by_request req.
  - unfold registerHandler. by repeat case_match.
  - destruct (resolveComplaintHandler_cases b s) as [[_ ->]|(id & c & _ & _ & Hc & ->)];
      [done|].
    simpl. by eapply map_size_insert_Some.
Qed.

Lemma run_size_complaints (reqs : list Request) (s : Store) :
  forallb (λ req, negb (isSubmit req)) reqs = true →
  size (complaints (run reqs s)) = size (complaints s).
Proof.
  revert s. induction reqs as [|req reqs IH]; intros s Hreqs; [done|].
  simpl in *. apply andb_prop in Hreqs as [Hreq Hreqs].
  rewrite IH by done. apply serve_size_complaints. by destruct (isSubmit req).
Qed.

(** A user, once registered, stays registered. *)
Lemma serve_users_mono (req : Request) (s : Store) (code : string) :
  is_Some (users s !! code) → is_Some (users (serve req s).2 !! code).
Proof.
  intros Hu. by_request req.
  - unfold registerHandler. repeat case_match; simpl; try done.
    apply lookup_insert_is_Some'. by right.
  - unfold submitComplaintHandler. repeat case_match; simpl; try done.
    apply lookup_insert_is_Some'. by right.
  - by destruct (resolveComplaintHandler_cases b s) as [[_ ->]|(id & c & _ & _ & Hc & ->)].
Qed.

(** * Properties of the specification *)

(** ** Registration with a secret code already in use *)

(** C5: when a secret code already keys a user, a register call with that
    secret code answers 400 "Secret code already in use", and the store, so
    also the record of the first user, stays as it was. *)
Theorem registerHandler_duplicate_secret_code (s : Store) (body : Body)
    (newUser first : User) :
  (Decode unmarshalUser body).1 = inr newUser →
  users s !! User_SecretCode newUser = Some first →
  (registerHandler body s).1 =
    mkResponse 400 (ErrorBody (Literal "Secret code already in use")) ∧
  (registerHandler body s).2 = s ∧
  users (registerHandler body s).2 !! User_SecretCode newUser = Some first.
Proof.
  intros Hd Hu. by erewrite registerHandler_taken.
Qed.

(** Two register calls with the secret code [c1], the second under another
    name: the table keeps the first record. *)
Lemma registerHandler_duplicate_secret_code_witness :
  (registerHandler (Sample.registerBody "c1" "B") Sample.store1).1 =
    mkResponse 400 (ErrorBody (Literal "Secret code already in use")) ∧
  (registerHandler (Sample.registerBody "c1" "B") Sample.store1).2 = Sample.store1 ∧
  users (registerHandler (Sample.registerBody "c1" "B") Sample.store1).2 !! "c1" =
    Some (mkUser "1" "c1" "A" "user@example.org" []).
Proof.
  apply (registerHandler_duplicate_secret_code Sample.store1
           (Sample.registerBody "c1" "B")
           (mkUser "" "c1" "B" "user@example.org" [])
           (mkUser "1" "c1" "A" "user@example.org" [])).
  - vm_compute. reflexivity.
  - vm_compute. reflexivity.
Defined.

(** ** Complaints for an unknown secret code *)

(** C6: in every store, a complaint whose secret code keys no user is
    answered 404 "User not found", and both tables stay as they were. *)
Theorem submitComplaintHandler_user_not_found (s : Store) (body : Body)
    (newComplaint : Complaint) :
  (Decode unmarshalComplaint body).1 = inr newComplaint →
  users s !! Complaint_SecretCode newComplaint = None →
  (submitComplaintHandler body s).1 =
    mkResponse 404 (ErrorBody (Literal "User not found")) ∧
  users (submitComplaintHandler body s).2 = users s ∧
  complaints (submitComplaintHandler body s).2 = complaints s.
Proof.
  intros Hd Hu. by erewrite submitComplaintHandler_unknown.
Qed.

Lemma submitComplaintHandler_user_not_found_witness :
  (submitComplaintHandler (Sample.complaintBody "nobody" 3) Sample.store2).1 =
    mkResponse 404 (ErrorBody (Literal "User not found")) ∧
  users (submitComplaintHandler (Sample.complaintBody "nobody" 3) Sample.store2).2 =
    users Sample.store2 ∧
  complaints (submitComplaintHandler (Sample.complaintBody "nobody" 3) Sample.store2).2 =
    complaints Sample.store2.
Proof.
  apply (submitComplaintHandler_user_not_found Sample.store2
           (Sample.complaintBody "nobody" 3)
           (mkComplaint "" "Noise" "Loud at night" 3 false "nobody")).
  - vm_compute. reflexivity.
  - vm_compute. reflexivity.
Defined.

(** ** Owners of the canonical complaints *)

(** C7: in every store reachable from the empty one through the seven
    handlers, the secret code stored in a canonical complaint keys a user;
    so [viewComplaintHandler] never takes its "User not found" branch. *)
Theorem viewComplaintHandler_user_not_found_unreachable (s : Store) :
  reachable s →
  (∀ id c, complaints s !! id = Some c →
           ∃ u, users s !! Complaint_SecretCode c = Some u) ∧
  (∀ body, (viewComplaintHandler body s).1 ≠
             writeError (Literal "User not found") StatusNotFound).
Proof.
  intros Hs. pose proof (reachable_ownersExist s Hs) as Hinv. split.
  - intros id c Hc. by apply Hinv in Hc.
  - intros body. unfold viewComplaintHandler.
    destruct (Decode unmarshalID body).1 as [e|id]; simpl; [done|].
    destruct (complaints s !! id) as [c|] eqn:Hc; simpl; [|done].
    apply Hinv in Hc as [u ->]. done.
Qed.

Lemma sample_store2_reachable : reachable Sample.store2.
Proof.
  apply reachable_serve; [|exact I].
  apply reachable_serve; [|exact I].
  apply reachable_empty.
Defined.

Lemma viewComplaintHandler_user_not_found_unreachable_witness :
  (∃ u, users Sample.store2 !! "c1" = Some u) ∧
  (viewComplaintHandler (Sample.idBody "1") Sample.store2).1 ≠
    writeError (Literal "User not found") StatusNotFound.
Proof.
  destruct (viewComplaintHandler_user_not_found_unreachable Sample.store2
              sample_store2_reachable) as [Howner Hview].
  split.
  - apply (Howner "1" (mkComplaint "1" "Noise" "Loud at night" 5 false "c1")).
    vm_compute. reflexivity.
  - apply Hview.
Defined.

(** ** One ID source for users and complaints *)

(** C1: [registerHandler] gives the new user the ID [len(complaints)+1] in
    decimal, and [submitComplaintHandler] gives the new complaint the ID
    [len(complaints)+1] in decimal, counted before the complaint is
    inserted.  Registering a user and then submitting a complaint therefore
    leaves a user and a complaint with the same ID, each in its table, and
    [viewComplaintHandler] on that ID answers with the complaint.  Started
    from a store without complaints, so from the empty store, that ID is
    "1". *)
Theorem generateUniqueID_shared_by_users_and_complaints (s : Store)
    (bodyU bodyC bodyV : Body) (newUser : User) (newComplaint : Complaint) :
  (Decode unmarshalUser bodyU).1 = inr newUser →
  users s !! User_SecretCode newUser = None →
  (Decode unmarshalComplaint bodyC).1 = inr newComplaint →
  is_Some (users (registerHandler bodyU s).2 !! Complaint_SecretCode newComplaint) →
  (Decode unmarshalID bodyV).1 = inr (generateUniqueID s) →
  let id := pretty (size (complaints s) + 1)%nat in
  let s1 := (registerHandler bodyU s).2 in
  let s2 := (submitComplaintHandler bodyC s1).2 in
  ∃ u u' c,
    (registerHandler bodyU s).1 = mkResponse 200 (UserBody u) ∧
    User_ID u = id ∧
    users s1 !! User_SecretCode newUser = Some u ∧
    complaints s1 = complaints s ∧
    (submitComplaintHandler bodyC s1).1 = mkResponse 201 NoBody ∧
    Complaint_ID c = id ∧
    complaints s2 = <[id := c]> (complaints s1) ∧
    users s2 !! User_SecretCode newUser = Some u' ∧
    User_ID u' = id ∧
    (viewComplaintHandler bodyV s2).1 = mkResponse 200 (ComplaintBody c) ∧
    (complaints s = ∅ → id = "1").
Proof.
  intros HdU Hfresh HdC Howner HdV id s1 s2.
  subst s2 s1. revert Howner.
  rewrite (registerHandler_ok bodyU s newUser HdU Hfresh). simpl.
  set (u := mkUser _ _ _ _ _).
  set (s1 := mkStore _ _).
  intros [owner Howner].
  rewrite (submitComplaintHandler_ok bodyC s1 newComplaint owner HdC Howner). simpl.
  change (generateUniqueID s1) with id.
  set (c := mkComplaint _ _ _ _ _ _).
  set (owner' := mkUser _ _ _ _ (_ ++ _)).
  set (s2 := mkStore _ _).
  assert (Hu : users s1 !! User_SecretCode newUser = Some u)
    by apply lookup_insert_eq.
  assert (Hu' : ∃ u', users s2 !! User_SecretCode newUser = Some u' ∧ User_ID u' = id).
  { destruct (decide (Complaint_SecretCode newComplaint = User_SecretCode newUser))
      as [Heq|Hne].
    - exists owner'. split; [subst s2; simpl; rewrite Heq; apply lookup_insert_eq|].
      rewrite Heq, lookup_insert_eq in Howner. by injection Howner as <-.
    - exists u. split; [|done]. subst s2; simpl. by rewrite lookup_insert_ne. }
  destruct Hu' as (u' & Hu' & Hid').
  exists u, u', c. split_and!; try done.
  - erewrite viewComplaintHandler_ok; [done|exact HdV|apply lookup_insert_eq|].
    subst s2; simpl. rewrite lookup_insert_eq. eauto.
  - intros Hempty. subst id. rewrite Hempty. reflexivity.
Qed.

(** The scenario on the empty store: user [c1] gets ID "1", the first
    complaint gets ID "1", and viewing "1" answers with the complaint. *)
Lemma generateUniqueID_shared_by_users_and_complaints_witness :
  ∃ u c,
    users Sample.store2 !! "c1" = Some u ∧ User_ID u = "1" ∧
    complaints Sample.store2 !! "1" = Some c ∧ Complaint_ID c = "1" ∧
    (viewComplaintHandler (Sample.idBody "1") Sample.store2).1 =
      mkResponse 200 (ComplaintBody c).
Proof.
  destruct (generateUniqueID_shared_by_users_and_complaints emptyStore
              (Sample.registerBody "c1" "A") (Sample.complaintBody "c1" 5)
              (Sample.idBody "1")
              (mkUser "" "c1" "A" "user@example.org" [])
              (mkComplaint "" "Noise" "Loud at night" 5 false "c1"))
    as (u & u' & c & _ & _ & _ & _ & _ & Hc & Hcs & Hu' & Hid' & Hview & Hone).
  - vm_compute. reflexivity.
  - vm_compute. reflexivity.
  - vm_compute. reflexivity.
  - vm_compute. eexists. reflexivity.
  - vm_compute. reflexivity.
  - exists u', c. rewrite Hone in * by reflexivity.
    split_and!; try done.
    change (complaints Sample.store2) with
      (complaints (submitComplaintHandler (Sample.complaintBody "c1" 5)
         (registerHandler (Sample.registerBody "c1" "A") emptyStore).2).2).
    rewrite Hcs. apply lookup_insert_eq.
Defined.

(** ** The resolved flag of a submitted complaint *)

Lemma foldl_mbind_None {A B : Type} (f : A → B → option A) (l : list B) :
  foldl (λ acc x, acc ≫= λ v, f v x) None l = None.
Proof. by induction l. Qed.

Lemma setComplaintField_Resolved (c c' : Complaint) (kv : string * json) :
  setComplaintField c kv = Some c' →
  keyIs kv.1 "resolved" && match kv.2 with JBool true => true | _ => false end = false →
  Complaint_Resolved c = false →
  Complaint_Resolved c' = false.
Proof.
  destruct kv as [key j]. unfold setComplaintField. simpl.
  intros Hset Hkv Hc.
  repeat case_match; simplify_option_eq; done.
Qed.

Lemma unmarshalComplaint_Resolved (members : list (string * json)) (c : Complaint) :
  unmarshalComplaint (JObj members) = Some c →
  setsResolvedTrue members = false →
  Complaint_Resolved c = false.
Proof.
  unfold unmarshalComplaint, unmarshalObject, setsResolvedTrue.
  assert (Hzero : Complaint_Resolved zeroComplaint = false) by done.
  revert Hzero. generalize zeroComplaint as c0.
  induction members as [|kv members IH]; intros c0 Hc0 Hfold Hnone; simpl in *.
  - by injection Hfold as <-.
  - apply orb_false_elim in Hnone as [Hkv Hnone].
    destruct (setComplaintField c0 kv) as [c1|] eqn:Hset; simpl in Hfold.
    + eapply (IH c1); eauto using setComplaintField_Resolved.
    + by rewrite foldl_mbind_None in Hfold.
Qed.

(** What [submitComplaintHandler] does with the resolved flag: after a
    successful submission, viewing the ID given to the complaint answers
    with a record whose resolved field is the one the payload decoded to.
    It is false when the payload is an object none of whose members sets
    resolved to true. *)
Theorem submitted_complaint_keeps_payload_resolved (s : Store) (body bodyV : Body)
    (newComplaint : Complaint) :
  (Decode unmarshalComplaint body).1 = inr newComplaint →
  is_Some (users s !! Complaint_SecretCode newComplaint) →
  (Decode unmarshalID bodyV).1 = inr (generateUniqueID s) →
  ∃ c,
    (submitComplaintHandler body s).1 = mkResponse 201 NoBody ∧
    (viewComplaintHandler bodyV (submitComplaintHandler body s).2).1 =
      mkResponse 200 (ComplaintBody c) ∧
    Complaint_ID c = generateUniqueID s ∧
    Complaint_Resolved c = Complaint_Resolved newComplaint ∧
    (∀ members, (readValue body).1 = inr (JObj members) →
                setsResolvedTrue members = false →
                Complaint_Resolved c = false).
Proof.
  intros Hd [owner Howner] HdV.
  rewrite (submitComplaintHandler_ok body s newComplaint owner Hd Howner). simpl.
  eexists. split_and!.
  - reflexivity.
  - erewrite viewComplaintHandler_ok; [reflexivity|exact HdV|apply lookup_insert_eq|].
    simpl. rewrite lookup_insert_eq. eauto.
  - reflexivity.
  - reflexivity.
  - intros members Hread Hnone. simpl.
    apply Decode_inr in Hd as (j & Hj & Hun).
    rewrite Hread in Hj. injection Hj as <-.
    by eapply unmarshalComplaint_Resolved.
Qed.

Lemma submitted_complaint_keeps_payload_resolved_witness :
  ∃ c,
    (viewComplaintHandler (Sample.idBody "1")
       (submitComplaintHandler (Sample.complaintBody "c1" 5) Sample.store1).2).1 =
      mkResponse 200 (ComplaintBody c) ∧
    Complaint_Resolved c = false.
Proof.
  destruct (submitted_complaint_keeps_payload_resolved Sample.store1
              (Sample.complaintBody "c1" 5) (Sample.idBody "1")
              (mkComplaint "" "Noise" "Loud at night" 5 false "c1"))
    as (c & _ & Hview & _ & _ & Hfalse).
  - vm_compute. reflexivity.
  - vm_compute. eexists. reflexivity.
  - vm_compute. reflexivity.
  - exists c. split; [exact Hview|].
    eapply Hfalse; vm_compute; reflexivity.
Defined.

(** C4 fails on the code: [submitComplaintHandler] overwrites the ID the
    client sent but keeps the resolved flag the client sent.  A submission
    whose payload decodes with resolved = true is answered 201, and viewing
    the ID given to the complaint answers with resolved = true, though
    [resolveComplaintHandler], the one place that sets the flag and asks for
    the administrator's secret code, was never called. *)
Theorem submitComplaintHandler_keeps_client_resolved (s : Store) (body bodyV : Body)
    (newComplaint : Complaint) :
  (Decode unmarshalComplaint body).1 = inr newComplaint →
  Complaint_Resolved newComplaint = true →
  is_Some (users s !! Complaint_SecretCode newComplaint) →
  (Decode unmarshalID bodyV).1 = inr (generateUniqueID s) →
  (submitComplaintHandler body s).1 = mkResponse 201 NoBody ∧
  ∃ c, (viewComplaintHandler bodyV (submitComplaintHandler body s).2).1 =
         mkResponse 200 (ComplaintBody c) ∧
       Complaint_ID c = generateUniqueID s ∧
       Complaint_Resolved c = true.
Proof.
  intros Hd Hres Howner HdV.
  destruct (submitted_complaint_keeps_payload_resolved s body bodyV newComplaint
              Hd Howner HdV) as (c & Hsubmit & Hview & Hid & Hflag & _).
  split; [exact Hsubmit|]. exists c. split_and!; [done..|]. by rewrite Hflag.
Qed.

(** User [c1] sends a complaint with ["resolved": true]: it is stored and
    viewed as resolved. *)
Lemma submitComplaintHandler_keeps_client_resolved_witness :
  (submitComplaintHandler (Sample.resolvedComplaintBody "c1") Sample.store1).1 =
    mkResponse 201 NoBody ∧
  ∃ c, (viewComplaintHandler (Sample.idBody "1")
          (submitComplaintHandler (Sample.resolvedComplaintBody "c1") Sample.store1).2).1 =
         mkResponse 200 (ComplaintBody c) ∧
       Complaint_ID c = generateUniqueID Sample.store1 ∧
       Complaint_Resolved c = true.
Proof.
  apply (submitComplaintHandler_keeps_client_resolved Sample.store1
           (Sample.resolvedComplaintBody "c1") (Sample.idBody "1")
           (mkComplaint "" "Noise" "" 0 true "c1")).
  - vm_compute. reflexivity.
  - reflexivity.
  - vm_compute. eexists. reflexivity.
  - vm_compute. reflexivity.
Defined.

(** ** Two decoders on one request body *)

Lemma scanBuf_filter (buf : list token) :
  match filter (λ t, negb (isSpace t)) buf with
  | [] => scanBuf buf = NeedMore
  | Value j :: _ => scanBuf buf = Complete j ∨ scanBuf buf = Pending j
  | Invalid :: _ => scanBuf buf = ScanError
  | Space :: _ => False
  end.
Proof.
  induction buf as [|[j| |] buf IH]; [done| | |].
  - rewrite filter_cons_True by done. simpl.
    destruct (composite j); [by left|]. destruct buf; [by right|by left].
  - by rewrite filter_cons_True.
  - by rewrite filter_cons_False by (simpl; tauto).
Qed.

Lemma tokens_cons (buf : list token) (r : Body) :
  tokens (buf :: r) = (filter (λ t, negb (isSpace t)) buf ++ tokens r)%list.
Proof. unfold tokens. simpl. apply filter_app. Qed.

Lemma tokens_afterNextByte (r : Body) :
  tokens r = [] → tokens (afterNextByte r) = [].
Proof.
  induction r as [|buf r IH]; [done|].
  rewrite tokens_cons. intros [_ Hr]%app_eq_nil. destruct buf; simpl; auto.
Qed.

(** A body with nothing but white space left is at its end for a decoder. *)
Lemma readValue_EOF (r : Body) : tokens r = [] → readValue r = (inl EOF, []).
Proof.
  induction r as [|buf r IH]; [done|].
  rewrite tokens_cons. intros [Hbuf Hr]%app_eq_nil. simpl.
  pose proof (scanBuf_filter buf) as Hscan. rewrite Hbuf in Hscan.
  rewrite Hscan. auto.
Qed.

(** A decoder that finds the only value of a body leaves nothing behind. *)
Lemma readValue_single (r : Body) (j : json) :
  tokens r = [Value j] →
  ∃ r', readValue r = (inr j, r') ∧ tokens r' = [].
Proof.
  induction r as [|buf r IH]; [done|].
  rewrite tokens_cons. intros Htok. simpl.
  pose proof (scanBuf_filter buf) as Hscan.
  apply app_singleton in Htok as [[Hbuf Hr]|[Hbuf Hr]]; rewrite Hbuf in Hscan.
  - rewrite Hscan. auto.
  - destruct Hscan as [-> | ->]; eauto using tokens_afterNextByte.
Qed.

(** C3 fails on the code: a resolveComplaint request whose body is one JSON
    object with the ID of an existing complaint and the secret code "admin"
    is answered 400 with the decoder's EOF error, not 204, and the complaint
    stays unresolved.  The first decoder takes the object, the second one
    finds the body at its end. *)
Theorem resolveComplaintHandler_single_object_EOF (s : Store) (body : Body)
    (members : list (string * json)) (id : string) (c : Complaint) :
  tokens body = [Value (JObj members)] →
  unmarshalID (JObj members) = Some id →
  unmarshalSecretCode (JObj members) = Some "admin" →
  complaints s !! id = Some c →
  resolveComplaintHandler body s =
    (mkResponse 400 (ErrorBody (ErrorOf EOF)), s).
Proof.
  intros Htok Hid _ _.
  apply readValue_single in Htok as (r' & Hread & Hrest).
  unfold resolveComplaintHandler, Decode at 1.
  rewrite Hread, Hid. unfold Decode. by rewrite (readValue_EOF r' Hrest).
Qed.

Lemma resolveComplaintHandler_single_object_EOF_witness :
  resolveComplaintHandler (Sample.resolveBody "1" "admin") Sample.store2 =
    (mkResponse 400 (ErrorBody (ErrorOf EOF)), Sample.store2).
Proof.
  apply (resolveComplaintHandler_single_object_EOF Sample.store2
           (Sample.resolveBody "1" "admin")
           [("id", JStr "1"); ("secretCode", JStr "admin")] "1"
           (mkComplaint "1" "Noise" "Loud at night" 5 false "c1")).
  - vm_compute. reflexivity.
  - vm_compute. reflexivity.
  - vm_compute. reflexivity.
  - vm_compute. reflexivity.
Defined.

(** ** Resolution and the copy held by the user *)

(** The frame of a resolution: when [resolveComplaintHandler] answers 204,
    it has replaced the canonical entry of that ID by its copy with
    resolved = true and has left the users table alone: the owner's list
    holds the same snapshot [x] of the complaint as before.  So
    [getAllComplaintsForUserHandler] answers as before, for the owner with
    the list that holds [x], while [viewComplaintHandler] on the ID answers
    with resolved = true. *)
Theorem resolveComplaintHandler_leaves_user_copy (s : Store) (body : Body) :
  reachable s →
  statusCode (resolveComplaintHandler body s).1 = 204 →
  let s' := (resolveComplaintHandler body s).2 in
  ∃ id c owner x,
    (Decode unmarshalID body).1 = inr id ∧
    (resolveComplaintHandler body s).1 = mkResponse 204 NoBody ∧
    complaints s !! id = Some c ∧
    complaints s' = <[id := resolved c]> (complaints s) ∧
    users s' = users s ∧
    users s !! Complaint_SecretCode c = Some owner ∧
    x ∈ User_Complaints owner ∧
    Complaint_ID x = id ∧
    resolved x = resolved c ∧
    (∀ b, (getAllComplaintsForUserHandler b s').1 =
          (getAllComplaintsForUserHandler b s).1) ∧
    (∀ b, (Decode unmarshalSecretCode b).1 = inr (Complaint_SecretCode c) →
          (getAllComplaintsForUserHandler b s').1 =
            mkResponse 200 (ComplaintsBody (User_Complaints owner))) ∧
    (∀ b, (Decode unmarshalID b).1 = inr id →
          (viewComplaintHandler b s').1 = mkResponse 200 (ComplaintBody (resolved c))) ∧
    Complaint_Resolved (resolved c) = true.
Proof.
  intros Hs Hstatus s'. subst s'.
  destruct (resolveComplaintHandler_cases body s)
    as [[Hne _]|(id & c & Hid & _ & Hc & Heq)]; [done|].
  destruct (reachable_copiesExist s Hs id c Hc) as (Hcid & owner & x & Howner & Hx & Hcopy).
  rewrite Heq. simpl. exists id, c, owner, x. split_and!; try done.
  - rewrite <- Hcid. by injection Hcopy.
  - intros b. unfold getAllComplaintsForUserHandler. simpl.
    by repeat case_match.
  - intros b Hd.
    by erewrite getAllComplaintsForUserHandler_ok; [|exact Hd|exact Howner].
  - intros b Hd.
    erewrite viewComplaintHandler_ok; [done|exact Hd|apply lookup_insert_eq|].
    simpl. eauto.
Qed.

(** User [c1] has submitted complaint "1"; the admin resolves it with a body
    that arrives in two reads.  The user's list still shows it unresolved,
    the canonical entry shows it resolved. *)
Lemma resolveComplaintHandler_leaves_user_copy_witness :
  let s' := (resolveComplaintHandler (Sample.resolveBodySplit "1" "admin")
               Sample.store2).2 in
  (getAllComplaintsForUserHandler (Sample.secretCodeBody "c1") s').1 =
    mkResponse 200
      (ComplaintsBody [mkComplaint "1" "Noise" "Loud at night" 5 false "c1"]) ∧
  (viewComplaintHandler (Sample.idBody "1") s').1 =
    mkResponse 200 (ComplaintBody (mkComplaint "1" "Noise" "Loud at night" 5 true "c1")).
Proof.
  destruct (resolveComplaintHandler_leaves_user_copy Sample.store2
              (Sample.resolveBodySplit "1" "admin") sample_store2_reachable)
    as (id & c & owner & x & Hid & _ & Hc & _ & _ & Howner & _ & _ & _ & _ & Hlist & Hview & _).
  - vm_compute. reflexivity.
  - vm_compute in Hid. injection Hid as <-.
    vm_compute in Hc. injection Hc as <-.
    vm_compute in Howner. injection Howner as <-.
    split.
    + apply Hlist. vm_compute. reflexivity.
    + apply Hview. vm_compute. reflexivity.
Defined.

(** ** The administrator's list *)

Lemma foldl_append_bind {A B : Type} (f : A → list B) (l : list A) (acc : list B) :
  foldl (λ acc x, (acc ++ f x)%list) acc l = (acc ++ (l ≫= f))%list.
Proof.
  revert acc. induction l as [|x l IH]; intros acc; csimpl.
  - by rewrite app_nil_r.
  - by rewrite IH, <- app_assoc.
Qed.

Lemma getAllComplaintsForAdminHandler_admin (order : list (string * User))
    (body : Body) (s : Store) :
  (Decode unmarshalSecretCode body).1 = inr "admin" →
  getAllComplaintsForAdminHandler order body s =
    (Encode (ComplaintsBody (order ≫= λ kv, User_Complaints kv.2)), s).
Proof.
  intros Hd. unfold getAllComplaintsForAdminHandler. rewrite Hd. simpl.
  by rewrite foldl_append_bind.
Qed.

Lemma elem_of_all_complaints (order : list (string * User)) (s : Store) (c : Complaint) :
  order ≡ₚ map_to_list (users s) →
  c ∈ (order ≫= λ kv, User_Complaints kv.2) ↔
  ∃ code u, users s !! code = Some u ∧ c ∈ User_Complaints u.
Proof.
  intros Hperm. rewrite list_elem_of_bind. split.
  - intros ([code u] & Hc & Hin). rewrite Hperm in Hin.
    apply elem_of_map_to_list in Hin. eauto.
  - intros (code & u & Hu & Hc). exists (code, u). split; [done|].
    rewrite Hperm. by apply elem_of_map_to_list.
Qed.

(** C8, as the code has it: with the secret code "admin" the handler
    answers 200 with the users' embedded lists appended in the order of the
    map iteration, which holds the complaints of every user's list and no
    others; with any other secret code it answers 401, and the body of that
    answer is the error object [{"error": "Unauthorized"}]. *)
Theorem getAllComplaintsForAdminHandler_admin_or_unauthorized (s : Store)
    (order : list (string * User)) (body : Body) (code : string) :
  order ≡ₚ map_to_list (users s) →
  (Decode unmarshalSecretCode body).1 = inr code →
  (code = "admin" →
     (getAllComplaintsForAdminHandler order body s).1 =
       mkResponse 200 (ComplaintsBody (order ≫= λ kv, User_Complaints kv.2)) ∧
     (order ≫= λ kv, User_Complaints kv.2)
       ≡ₚ (map_to_list (users s) ≫= λ kv, User_Complaints kv.2) ∧
     (∀ c, c ∈ (order ≫= λ kv, User_Complaints kv.2) ↔
           ∃ k u, users s !! k = Some u ∧ c ∈ User_Complaints u)) ∧
  (code ≠ "admin" →
     (getAllComplaintsForAdminHandler order body s).1 =
       mkResponse 401 (ErrorBody (Literal "Unauthorized"))) ∧
  (getAllComplaintsForAdminHandler order body s).2 = s.
Proof.
  intros Hperm Hd. split_and!.
  - intros ->. rewrite getAllComplaintsForAdminHandler_admin by done.
    split_and!; [done|by rewrite Hperm|].
    intros c. by apply elem_of_all_complaints.
  - intros Hne. unfold getAllComplaintsForAdminHandler. rewrite Hd. simpl.
    by rewrite bool_decide_eq_true_2.
  - apply getAllComplaintsForAdminHandler_store.
Qed.

Lemma getAllComplaintsForAdminHandler_admin_or_unauthorized_witness :
  (getAllComplaintsForAdminHandler (map_to_list (users Sample.store2))
     (Sample.secretCodeBody "admin") Sample.store2).1 =
    mkResponse 200
      (ComplaintsBody [mkComplaint "1" "Noise" "Loud at night" 5 false "c1"]) ∧
  (getAllComplaintsForAdminHandler (map_to_list (users Sample.store2))
     (Sample.secretCodeBody "c1") Sample.store2).1 =
    mkResponse 401 (ErrorBody (Literal "Unauthorized")).
Proof.
  split.
  - destruct (getAllComplaintsForAdminHandler_admin_or_unauthorized Sample.store2
                (map_to_list (users Sample.store2)) (Sample.secretCodeBody "admin")
                "admin") as ([Hadmin _] & _ & _).
    + reflexivity.
    + vm_compute. reflexivity.
    + reflexivity.
    + rewrite Hadmin. vm_compute. reflexivity.
  - apply (getAllComplaintsForAdminHandler_admin_or_unauthorized Sample.store2
             (map_to_list (users Sample.store2)) (Sample.secretCodeBody "c1") "c1").
    + reflexivity.
    + vm_compute. reflexivity.
    + discriminate.
Defined.

(** C8, as stated, fails: the 401 answer has a body. *)
Lemma getAllComplaintsForAdminHandler_unauthorized_counterexample :
  (getAllComplaintsForAdminHandler (map_to_list (users Sample.store2))
     (Sample.secretCodeBody "c1") Sample.store2).1 =
    mkResponse 401 (ErrorBody (Literal "Unauthorized")) ∧
  payload (getAllComplaintsForAdminHandler (map_to_list (users Sample.store2))
             (Sample.secretCodeBody "c1") Sample.store2).1 ≠ NoBody.
Proof.
  split; [vm_compute; reflexivity|].
  vm_compute. discriminate.
Qed.

(** ** User IDs are not unique *)

(** Requests other than submissions leave the record of a registered user
    as it is. *)
Lemma serve_users_lookup (req : Request) (s : Store) (code : string) (u : User) :
  isSubmit req = false →
  users s !! code = Some u →
  users (serve req s).2 !! code = Some u.
Proof.
  intros Hreq Hu. by_request req.
  - unfold registerHandler. repeat case_match; simpl; try done.
    rewrite lookup_insert_ne; [done|]. congruence.
  - by destruct (resolveComplaintHandler_cases b s) as [[_ ->]|(id & c & _ & _ & Hc & ->)].
Qed.

Lemma run_users_lookup (reqs : list Request) (s : Store) (code : string) (u : User) :
  forallb (λ req, negb (isSubmit req)) reqs = true →
  users s !! code = Some u →
  users (run reqs s) !! code = Some u.
Proof.
  revert s. induction reqs as [|req reqs IH]; intros s Hreqs Hu; [done|].
  simpl in *. apply andb_prop in Hreqs as [Hreq Hreqs].
  apply IH; [done|]. apply serve_users_lookup; [|done]. by destruct (isSubmit req).
Qed.

(** C9: a user is registered, requests that are not complaint submissions
    are served, and a second user is registered under a secret code not yet
    in use.  Both users are given the same ID, the decimal of the number of
    complaints plus 1, and both records, with different secret codes, are in
    the users table. *)
Theorem registerHandler_same_ID_twice (s : Store) (body1 body2 : Body)
    (newUser1 newUser2 : User) (reqs : list Request) :
  (Decode unmarshalUser body1).1 = inr newUser1 →
  users s !! User_SecretCode newUser1 = None →
  (Decode unmarshalUser body2).1 = inr newUser2 →
  forallb (λ req, negb (isSubmit req)) reqs = true →
  let s1 := run reqs (registerHandler body1 s).2 in
  users s1 !! User_SecretCode newUser2 = None →
  let s2 := (registerHandler body2 s1).2 in
  ∃ u1 u2,
    (registerHandler body1 s).1 = mkResponse 200 (UserBody u1) ∧
    (registerHandler body2 s1).1 = mkResponse 200 (UserBody u2) ∧
    User_ID u1 = pretty (size (complaints s) + 1)%nat ∧
    User_ID u2 = User_ID u1 ∧
    User_SecretCode u1 ≠ User_SecretCode u2 ∧
    users s2 !! User_SecretCode u1 = Some u1 ∧
    users s2 !! User_SecretCode u2 = Some u2.
Proof.
  intros Hd1 Hfresh1 Hd2 Hreqs s1 Hfresh2 s2. subst s2.
  assert (Hu1 : ∃ u1, (registerHandler body1 s).1 = mkResponse 200 (UserBody u1) ∧
                      User_ID u1 = pretty (size (complaints s) + 1)%nat ∧
                      User_SecretCode u1 = User_SecretCode newUser1 ∧
                      users s1 !! User_SecretCode newUser1 = Some u1 ∧
                      size (complaints s1) = size (complaints s)).
  { subst s1. rewrite run_size_complaints by done.
    rewrite (registerHandler_ok body1 s newUser1 Hd1 Hfresh1). simpl.
    eexists. split_and!; try reflexivity.
    apply run_users_lookup; [done|]. simpl. apply lookup_insert_eq. }
  destruct Hu1 as (u1 & Hr1 & Hid1 & Hcode1 & Hkept & Hsize).
  rewrite (registerHandler_ok body2 s1 newUser2 Hd2 Hfresh2). simpl.
  assert (Hne : User_SecretCode newUser1 ≠ User_SecretCode newUser2) by congruence.
  eexists u1, _. split_and!; try done; simpl.
  - unfold generateUniqueID. by rewrite Hsize, Hid1.
  - by rewrite Hcode1.
  - rewrite Hcode1. by rewrite lookup_insert_ne.
  - apply lookup_insert_eq.
Qed.

(** Users [c1] and [c2] registered on the empty store, with a view request
    in between, both get the ID "1". *)
Lemma registerHandler_same_ID_twice_witness :
  ∃ u1 u2,
    (registerHandler (Sample.registerBody "c1" "A") emptyStore).1 =
      mkResponse 200 (UserBody u1) ∧
    (registerHandler (Sample.registerBody "c2" "B")
       (run [ViewComplaint (Sample.idBody "1")] Sample.store1)).1 =
      mkResponse 200 (UserBody u2) ∧
    User_ID u1 = "1" ∧ User_ID u2 = "1" ∧
    User_SecretCode u1 ≠ User_SecretCode u2.
Proof.
  destruct (registerHandler_same_ID_twice emptyStore
              (Sample.registerBody "c1" "A") (Sample.registerBody "c2" "B")
              (mkUser "" "c1" "A" "user@example.org" [])
              (mkUser "" "c2" "B" "user@example.org" [])
              [ViewComplaint (Sample.idBody "1")])
    as (u1 & u2 & Hr1 & Hr2 & Hid1 & Hid2 & Hne & _).
  - vm_compute. reflexivity.
  - vm_compute. reflexivity.
  - vm_compute. reflexivity.
  - reflexivity.
  - vm_compute. reflexivity.
  - exists u1, u2. split_and!; try assumption.
    rewrite Hid2. exact Hid1.
Defined.

(** ** The secret code "admin" is not reserved *)

(** C10: a register request with the secret code "admin" is accepted when
    "admin" keys no user yet, and the user is stored; a login with the
    secret code "admin" then answers with that user; and once that user has
    submitted a complaint, the administrator's list holds it, as it holds
    every complaint of that user's list. *)
Theorem registerHandler_accepts_admin_secret_code (s : Store)
    (body bodyL bodyC bodyA : Body) (newUser : User) (newComplaint : Complaint)
    (order : list (string * User)) :
  (Decode unmarshalUser body).1 = inr newUser →
  User_SecretCode newUser = "admin" →
  users s !! "admin" = None →
  (Decode unmarshalSecretCode bodyL).1 = inr "admin" →
  (Decode unmarshalComplaint bodyC).1 = inr newComplaint →
  Complaint_SecretCode newComplaint = "admin" →
  (Decode unmarshalSecretCode bodyA).1 = inr "admin" →
  let s1 := (registerHandler body s).2 in
  let s2 := (submitComplaintHandler bodyC s1).2 in
  order ≡ₚ map_to_list (users s2) →
  ∃ u u2 c cs,
    (registerHandler body s).1 = mkResponse 200 (UserBody u) ∧
    User_SecretCode u = "admin" ∧
    users s1 = <["admin" := u]> (users s) ∧
    loginHandler bodyL s1 = (mkResponse 200 (UserBody u), s1) ∧
    (submitComplaintHandler bodyC s1).1 = mkResponse 201 NoBody ∧
    users s2 !! "admin" = Some u2 ∧
    User_Complaints u2 = [c] ∧
    Complaint_SecretCode c = "admin" ∧
    (getAllComplaintsForAdminHandler order bodyA s2).1 =
      mkResponse 200 (ComplaintsBody cs) ∧
    (∀ x, x ∈ User_Complaints u2 → x ∈ cs).
Proof.
  intros Hd Hcode Hfresh HdL HdC HcodeC HdA s1 s2 Hperm. subst s2 s1.
  revert Hperm. rewrite <- Hcode in Hfresh.
  rewrite (registerHandler_ok body s newUser Hd Hfresh). simpl.
  rewrite Hcode. set (u := mkUser _ _ _ _ _). set (s1 := mkStore _ _).
  assert (Hu : users s1 !! Complaint_SecretCode newComplaint = Some u).
  { rewrite HcodeC. apply lookup_insert_eq. }
  rewrite (submitComplaintHandler_ok bodyC s1 newComplaint u HdC Hu). simpl.
  rewrite HcodeC. set (c := mkComplaint _ _ _ _ _ _). set (s2 := mkStore _ _).
  intros Hperm.
  exists u, (mkUser (User_ID u) "admin" (User_Name u) (User_Email u) [c]), c.
  exists (order ≫= λ kv, User_Complaints kv.2). split_and!; try done.
  - rewrite (loginHandler_ok bodyL s1 "admin" u HdL); [done|].
    apply lookup_insert_eq.
  - apply lookup_insert_eq.
  - by rewrite (getAllComplaintsForAdminHandler_admin order bodyA s2 HdA).
  - intros x Hx. apply (elem_of_all_complaints order s2 x Hperm).
    eexists "admin", _. split; [apply lookup_insert_eq|done].
Qed.

Lemma registerHandler_accepts_admin_secret_code_witness :
  let s1 := (registerHandler (Sample.registerBody "admin" "Root") Sample.store2).2 in
  let s2 := (submitComplaintHandler (Sample.complaintBody "admin" 2) s1).2 in
  ∃ u cs,
    loginHandler (Sample.secretCodeBody "admin") s1 = (mkResponse 200 (UserBody u), s1) ∧
    User_SecretCode u = "admin" ∧
    (getAllComplaintsForAdminHandler (map_to_list (users s2))
       (Sample.secretCodeBody "admin") s2).1 = mkResponse 200 (ComplaintsBody cs) ∧
    mkComplaint "2" "Noise" "Loud at night" 2 false "admin" ∈ cs.
Proof.
  intros s1 s2.
  destruct (registerHandler_accepts_admin_secret_code Sample.store2
              (Sample.registerBody "admin" "Root") (Sample.secretCodeBody "admin")
              (Sample.complaintBody "admin" 2) (Sample.secretCodeBody "admin")
              (mkUser "" "admin" "Root" "user@example.org" [])
              (mkComplaint "" "Noise" "Loud at night" 2 false "admin")
              (map_to_list (users s2)))
    as (u & u2 & c & cs & _ & Hcode & _ & Hlogin & _ & Hu2 & Hcs2 & _ & Hadmin & Hin).
  - vm_compute. reflexivity.
  - reflexivity.
  - vm_compute. reflexivity.
  - vm_compute. reflexivity.
  - vm_compute. reflexivity.
  - reflexivity.
  - vm_compute. reflexivity.
  - reflexivity.
  - exists u, cs. split_and!; try assumption.
    apply Hin. vm_compute in Hu2. injection Hu2 as <-. simpl.
    apply list_elem_of_singleton. reflexivity.
Defined.

(** ** End to end *)

(** Register user [c1], submit a complaint of severity 5, log in, let the
    administrator resolve complaint "1", view it. *)
Example end_to_end :
  let s3 := run [Register (Sample.registerBody "c1" "A");
                 SubmitComplaint (Sample.complaintBody "c1" 5);
                 ResolveComplaint (Sample.resolveBodySplit "1" "admin")] emptyStore in
  (loginHandler (Sample.secretCodeBody "c1") Sample.store2).1 =
    mkResponse 200
      (UserBody (mkUser "1" "c1" "A" "user@example.org"
                   [mkComplaint "1" "Noise" "Loud at night" 5 false "c1"])) ∧
  (viewComplaintHandler (Sample.idBody "1") s3).1 =
    mkResponse 200
      (ComplaintBody (mkComplaint "1" "Noise" "Loud at night" 5 true "c1")) ∧
  (getAllComplaintsForUserHandler (Sample.secretCodeBody "c1") s3).1 =
    mkResponse 200
      (ComplaintsBody [mkComplaint "1" "Noise" "Loud at night" 5 false "c1"]).
Proof. repeat split; vm_compute; reflexivity. Qed.

(** * Further properties of the handlers *)

(** ** The keys of the canonical table *)

Lemma complaintKeys_fresh (s : Store) :
  complaintKeys s → complaints s !! generateUniqueID s = None.
Proof.
  intros Hkeys. apply eq_None_not_Some. intros (k & Hk & Heq)%Hkeys.
  unfold generateUniqueID in Heq. apply (inj pretty) in Heq. lia.
Qed.

Lemma serve_complaintKeys (req : Request) (s : Store) :
  complaintKeys s → complaintKeys (serve req s).2.
Proof.
  intros Hkeys. by_request req.
  - unfold registerHandler. by repeat case_match.
  - unfold submitComplaintHandler.
    destruct (Decode unmarshalComplaint b).1 as [e|newComplaint]; simpl; [done|].
    destruct (users s !! Complaint_SecretCode newComplaint) as [user|]; simpl; [|done].
    pose proof (complaintKeys_fresh s Hkeys) as Hfresh.
    intros id; simpl. rewrite map_size_insert_None by done.
    rewrite lookup_insert_is_Some, (Hkeys id). unfold generateUniqueID. split.
    + intros [<-|[_ (k & Hk & ->)]].
      * exists (size (complaints s) + 1)%nat. split; [lia|done].
      * exists k. split; [lia|done].
    + intros (k & Hk & ->).
      destruct (decide (k = size (complaints s) + 1)%nat) as [->|Hne]; [by left|].
      right. split; [intros Heq; by apply (inj pretty) in Heq|].
      exists k. split; [lia|done].
  - destruct (resolveComplaintHandler_cases b s) as [[_ ->]|(id & c & _ & _ & Hc & ->)];
      [done|].
    intros id'; simpl. rewrite map_size_insert_Some by eauto.
    rewrite lookup_insert_is_Some, <- (Hkeys id'). split.
    + intros [<-|[_ ?]]; [by eexists|done].
    + intros Hsome. destruct (decide (id = id')); [by left|by right].
Qed.

Lemma emptyStore_complaintKeys : complaintKeys emptyStore.
Proof.
  intros id. simpl. rewrite lookup_empty, map_size_empty. split.
  - by intros [? ?].
  - intros (k & Hk & _). lia.
Qed.

Lemma reachable_complaintKeys (s : Store) : reachable s → complaintKeys s.
Proof.
  induction 1 as [|req s _ IH _]; [|by apply serve_complaintKeys].
  apply emptyStore_complaintKeys.
Qed.

Lemma run_complaintKeys (reqs : list Request) (s : Store) :
  complaintKeys s → complaintKeys (run reqs s).
Proof.
  revert s. induction reqs as [|req reqs IH]; intros s Hs; [done|].
  simpl. by apply IH, serve_complaintKeys.
Qed.

(** X1: in every reachable store the keys of the canonical table are
    exactly the decimals of 1 to the number of complaints, so the ID
    [generateUniqueID] hands out next keys no complaint yet. *)
Theorem complaint_IDs_are_1_to_n (s : Store) :
  reachable s →
  (∀ id, is_Some (complaints s !! id) ↔
         ∃ k : nat, (1 ≤ k ≤ size (complaints s))%nat ∧ id = pretty k) ∧
  complaints s !! generateUniqueID s = None.
Proof.
  intros Hs. pose proof (reachable_complaintKeys s Hs) as Hkeys.
  split; [exact Hkeys|by apply complaintKeys_fresh].
Qed.

Lemma complaint_IDs_are_1_to_n_witness :
  is_Some (complaints Sample.store2 !! "1") ∧
  complaints Sample.store2 !! "2" = None.
Proof.
  destruct (complaint_IDs_are_1_to_n Sample.store2 sample_store2_reachable)
    as [Hkeys Hfresh].
  split.
  - apply Hkeys. exists 1%nat. split; [vm_compute; lia|reflexivity].
  - exact Hfresh.
Defined.

(** ** Complaints are added one at a time and never lost *)

(** X2: in a reachable store a successful submission adds exactly one
    entry to the canonical table, under a key that was free, and leaves
    every entry that was there as it was. *)
Theorem submitComplaintHandler_adds_one (s : Store) (body : Body) :
  reachable s →
  statusCode (submitComplaintHandler body s).1 = 201 →
  let s' := (submitComplaintHandler body s).2 in
  size (complaints s') = S (size (complaints s)) ∧
  complaints s !! generateUniqueID s = None ∧
  is_Some (complaints s' !! generateUniqueID s) ∧
  (∀ id c, complaints s !! id = Some c → complaints s' !! id = Some c).
Proof.
  intros Hs Hstatus s'. subst s'.
  pose proof (complaintKeys_fresh s (reachable_complaintKeys s Hs)) as Hfresh.
  revert Hstatus. unfold submitComplaintHandler.
  destruct (Decode unmarshalComplaint body).1 as [e|newComplaint]; simpl; [done|].
  destruct (users s !! Complaint_SecretCode newComplaint) as [user|]; simpl; [|done].
  intros _. split_and!.
  - by apply map_size_insert_None.
  - done.
  - rewrite lookup_insert_eq. eauto.
  - intros id c Hc. rewrite lookup_insert_ne; [done|]. congruence.
Qed.

Lemma submitComplaintHandler_adds_one_witness :
  let s' := (submitComplaintHandler (Sample.complaintBody "c1" 4) Sample.store2).2 in
  size (complaints s') = 2%nat ∧
  complaints s' !! "1" = Some (mkComplaint "1" "Noise" "Loud at night" 5 false "c1").
Proof.
  destruct (submitComplaintHandler_adds_one Sample.store2
              (Sample.complaintBody "c1" 4) sample_store2_reachable)
    as (Hsize & _ & _ & Hkept).
  - vm_compute. reflexivity.
  - split; [exact Hsize|]. apply Hkept. vm_compute. reflexivity.
Defined.

Lemma resolved_resolved (c : Complaint) : resolved (resolved c) = resolved c.
Proof. done. Qed.

Lemma resolved_id (c : Complaint) : Complaint_Resolved c = true → resolved c = c.
Proof. destruct c; simpl. by intros ->. Qed.

Lemma serve_complaints_persist (req : Request) (s : Store) (id : string) (c : Complaint) :
  complaintKeys s →
  complaints s !! id = Some c →
  complaints (serve req s).2 !! id = Some c ∨
  complaints (serve req s).2 !! id = Some (resolved c).
Proof.
  intros Hkeys Hc. by_request req; try by left.
  - left. unfold registerHandler. by repeat case_match.
  - left. pose proof (complaintKeys_fresh s Hkeys) as Hfresh.
    unfold submitComplaintHandler. repeat case_match; simpl; try done.
    rewrite lookup_insert_ne; [done|]. congruence.
  - destruct (resolveComplaintHandler_cases b s) as [[_ ->]|(id' & c' & _ & _ & Hc' & ->)];
      [by left|].
    simpl. destruct (decide (id' = id)) as [->|Hne].
    + right. rewrite lookup_insert_eq. congruence.
    + left. by rewrite lookup_insert_ne.
Qed.

Lemma run_complaints_persist (reqs : list Request) (s : Store) (id : string)
    (c : Complaint) :
  complaintKeys s →
  complaints s !! id = Some c →
  complaints (run reqs s) !! id = Some c ∨
  complaints (run reqs s) !! id = Some (resolved c).
Proof.
  revert s c. induction reqs as [|req reqs IH]; intros s c Hkeys Hc; [by left|].
  simpl. pose proof (serve_complaintKeys req s Hkeys) as Hkeys'.
  destruct (serve_complaints_persist req s id c Hkeys Hc) as [Hc'|Hc'].
  - by apply IH.
  - right. destruct (IH _ _ Hkeys' Hc') as [?|?]; by rewrite ?resolved_resolved in *.
Qed.

(** X3: a complaint in the canonical table of a reachable store stays
    under its ID whatever requests are served afterwards, and changes at
    most by having its resolved flag set; once resolved it stays resolved. *)
Theorem complaints_persist (s : Store) (reqs : list Request) (id : string)
    (c : Complaint) :
  reachable s →
  complaints s !! id = Some c →
  ∃ c', complaints (run reqs s) !! id = Some c' ∧
        (c' = c ∨ c' = resolved c) ∧
        (Complaint_Resolved c = true → c' = c).
Proof.
  intros Hs Hc.
  destruct (run_complaints_persist reqs s id c (reachable_complaintKeys s Hs) Hc)
    as [Hc'|Hc']; eexists; (split; [exact Hc'|]); split; auto using resolved_id.
Qed.

Lemma complaints_persist_witness :
  ∃ c', complaints (run [SubmitComplaint (Sample.complaintBody "c1" 4);
                         ResolveComplaint (Sample.resolveBodySplit "1" "admin");
                         Register (Sample.registerBody "c2" "B")] Sample.store2) !! "1"
          = Some c' ∧
        (c' = mkComplaint "1" "Noise" "Loud at night" 5 false "c1" ∨
         c' = mkComplaint "1" "Noise" "Loud at night" 5 true "c1").
Proof.
  destruct (complaints_persist Sample.store2
              [SubmitComplaint (Sample.complaintBody "c1" 4);
               ResolveComplaint (Sample.resolveBodySplit "1" "admin");
               Register (Sample.registerBody "c2" "B")] "1"
              (mkComplaint "1" "Noise" "Loud at night" 5 false "c1")
              sample_store2_reachable)
    as (c' & Hc' & Hcases & _).
  - vm_compute. reflexivity.
  - exists c'. split; [exact Hc'|exact Hcases].
Defined.

(** ** Users are never removed or renamed *)

Lemma serve_user_persists (req : Request) (s : Store) (code : string) (u : User) :
  users s !! code = Some u →
  ∃ u', users (serve req s).2 !! code = Some u' ∧
        User_ID u' = User_ID u ∧
        User_SecretCode u' = User_SecretCode u ∧
        User_Name u' = User_Name u ∧
        User_Email u' = User_Email u ∧
        User_Complaints u `prefix_of` User_Complaints u'.
Proof.
  intros Hu. by_request req; try by exists u.
  - unfold registerHandler.
    destruct (Decode unmarshalUser b).1 as [e|newUser]; simpl; [by exists u|].
    destruct (users s !! User_SecretCode newUser) eqn:Hfresh; simpl; [by exists u|].
    exists u. rewrite lookup_insert_ne; [done|]. congruence.
  - unfold submitComplaintHandler.
    destruct (Decode unmarshalComplaint b).1 as [e|newComplaint]; simpl; [by exists u|].
    destruct (users s !! Complaint_SecretCode newComplaint) as [user|] eqn:Huser;
      simpl; [|by exists u].
    destruct (decide (Complaint_SecretCode newComplaint = code)) as [Heq|Hne].
    + rewrite Heq in *. rewrite Hu in Huser. injection Huser as <-.
      eexists. rewrite lookup_insert_eq. split_and!; try done.
      simpl. by apply prefix_app_r.
    + exists u. by rewrite lookup_insert_ne.
  - destruct (resolveComplaintHandler_cases b s) as [[_ ->]|(id & c & _ & _ & Hc & ->)];
      by exists u.
Qed.

(** X4: a registered user stays registered under the same secret code
    whatever requests are served afterwards, with the same ID, name and
    email; the user's complaint list only grows at its end. *)
Theorem users_persist (s : Store) (reqs : list Request) (code : string) (u : User) :
  users s !! code = Some u →
  ∃ u', users (run reqs s) !! code = Some u' ∧
        User_ID u' = User_ID u ∧
        User_SecretCode u' = User_SecretCode u ∧
        User_Name u' = User_Name u ∧
        User_Email u' = User_Email u ∧
        User_Complaints u `prefix_of` User_Complaints u'.
Proof.
  revert s u. induction reqs as [|req reqs IH]; intros s u Hu; [by exists u|].
  simpl.
  destruct (serve_user_persists req s code u Hu) as (u1 & Hu1 & ? & ? & ? & ? & ?).
  destruct (IH _ _ Hu1) as (u' & Hu' & ? & ? & ? & ? & ?).
  exists u'. split_and!; try congruence. by etrans.
Qed.

Lemma users_persist_witness :
  ∃ u', users (run [Register (Sample.registerBody "c1" "Z");
                    SubmitComplaint (Sample.complaintBody "c1" 4)] Sample.store2) !! "c1"
          = Some u' ∧
        User_ID u' = "1" ∧ User_Name u' = "A" ∧
        [mkComplaint "1" "Noise" "Loud at night" 5 false "c1"]
          `prefix_of` User_Complaints u'.
Proof.
  destruct (users_persist Sample.store2
              [Register (Sample.registerBody "c1" "Z");
               SubmitComplaint (Sample.complaintBody "c1" 4)] "c1"
              (mkUser "1" "c1" "A" "user@example.org"
                 [mkComplaint "1" "Noise" "Loud at night" 5 false "c1"]))
    as (u' & Hu' & Hid & _ & Hname & _ & Hprefix).
  - vm_compute. reflexivity.
  - exists u'. split_and!; assumption.
Defined.

(** ** Secret codes key the users table *)

Lemma serve_usersKeyed (req : Request) (s : Store) :
  usersKeyed s → usersKeyed (serve req s).2.
Proof.
  intros Hinv. by_request req.
  - unfold registerHandler.
    destruct (Decode unmarshalUser b).1 as [e|newUser]; simpl; [done|].
    destruct (users s !! User_SecretCode newUser) eqn:Hfresh; simpl; [done|].
    intros code u; simpl.
    intros [[<- <-]|[_ Hu]]%lookup_insert_Some; [|by apply Hinv].
    split; [done|]. simpl. by intros x ?%elem_of_nil.
  - unfold submitComplaintHandler.
    destruct (Decode unmarshalComplaint b).1 as [e|newComplaint]; simpl; [done|].
    destruct (users s !! Complaint_SecretCode newComplaint) as [user|] eqn:Huser;
      simpl; [|done].
    destruct (Hinv _ _ Huser) as [Hcode Hlist].
    intros code u; simpl.
    intros [[<- <-]|[_ Hu]]%lookup_insert_Some; [|by apply Hinv].
    split; [done|]. simpl.
    intros x [Hx| ->%list_elem_of_singleton]%elem_of_app; [by apply Hlist|done].
  - by destruct (resolveComplaintHandler_cases b s) as [[_ ->]|(id & c & _ & _ & Hc & ->)].
Qed.

Lemma reachable_usersKeyed (s : Store) : reachable s → usersKeyed s.
Proof.
  induction 1 as [|req s _ IH _]; [|by apply serve_usersKeyed].
  intros code u Hu. simpl in Hu. by rewrite lookup_empty in Hu.
Qed.

(** X5: in every reachable store a user record sits under its own secret
    code, so no two records share a secret code, and every complaint of a
    user's list carries that user's secret code. *)
Theorem users_keyed_by_secret_code (s : Store) (code : string) (u : User) :
  reachable s →
  users s !! code = Some u →
  User_SecretCode u = code ∧
  (∀ x, x ∈ User_Complaints u → Complaint_SecretCode x = code) ∧
  (∀ code' u', users s !! code' = Some u' →
               User_SecretCode u' = User_SecretCode u → code' = code ∧ u' = u).
Proof.
  intros Hs Hu. pose proof (reachable_usersKeyed s Hs) as Hinv.
  destruct (Hinv code u Hu) as [Hcode Hlist]. split_and!; [done..|].
  intros code' u' Hu' Heq. destruct (Hinv code' u' Hu') as [Hcode' _].
  assert (code' = code) as -> by congruence. split; congruence.
Qed.

Lemma users_keyed_by_secret_code_witness :
  User_SecretCode (mkUser "1" "c1" "A" "user@example.org"
                     [mkComplaint "1" "Noise" "Loud at night" 5 false "c1"]) = "c1" ∧
  ∀ code' u', users Sample.store2 !! code' = Some u' →
              User_SecretCode u' = "c1" → code' = "c1".
Proof.
  destruct (users_keyed_by_secret_code Sample.store2 "c1"
              (mkUser "1" "c1" "A" "user@example.org"
                 [mkComplaint "1" "Noise" "Loud at night" 5 false "c1"])
              sample_store2_reachable)
    as (Hcode & _ & Huniq).
  - vm_compute. reflexivity.
  - split; [exact Hcode|]. intros code' u' Hu' Heq.
    exact (proj1 (Huniq code' u' Hu' Heq)).
Defined.

(** ** The copies in the users' lists *)

Lemma serve_copiesCanonical (req : Request) (s : Store) :
  complaintKeys s → copiesCanonical s → copiesCanonical (serve req s).2.
Proof.
  intros Hkeys Hinv. by_request req.
  - unfold registerHandler.
    destruct (Decode unmarshalUser b).1 as [e|newUser]; simpl; [done|].
    destruct (users s !! User_SecretCode newUser) eqn:Hfresh; simpl; [done|].
    intros code u x; simpl.
    intros [[<- <-]|[_ Hu]]%lookup_insert_Some; [by intros ?%elem_of_nil|].
    intros Hx. by eapply Hinv.
  - pose proof (complaintKeys_fresh s Hkeys) as Hfresh.
    unfold submitComplaintHandler.
    destruct (Decode unmarshalComplaint b).1 as [e|newComplaint]; simpl; [done|].
    destruct (users s !! Complaint_SecretCode newComplaint) as [user|] eqn:Huser;
      simpl; [|done].
    assert (Hold : ∀ code u x, users s !! code = Some u → x ∈ User_Complaints u →
              ∃ c, <[generateUniqueID s :=
                       mkComplaint (generateUniqueID s) (Complaint_Title newComplaint)
                         (Complaint_Summary newComplaint) (Complaint_Severity newComplaint)
                         (Complaint_Resolved newComplaint)
                         (Complaint_SecretCode newComplaint)]> (complaints s)
                     !! Complaint_ID x = Some c ∧ (c = x ∨ c = resolved x)).
    { intros code u x Hu Hx. destruct (Hinv code u x Hu Hx) as (c & Hc & Hcases).
      exists c. split; [|done]. rewrite lookup_insert_ne; [done|]. congruence. }
    intros code u x; simpl.
    intros [[<- <-]|[_ Hu]]%lookup_insert_Some; [|by eapply Hold].
    simpl. intros [Hx| ->%list_elem_of_singleton]%elem_of_app; [by eapply Hold|].
    simpl. rewrite lookup_insert_eq. eauto.
  - destruct (resolveComplaintHandler_cases b s) as [[_ ->]|(id & c & _ & _ & Hc & ->)];
      [done|].
    intros code u x Hu Hx; simpl in *.
    destruct (Hinv code u x Hu Hx) as (c' & Hc' & Hcases).
    destruct (decide (id = Complaint_ID x)) as [->|Hne].
    + rewrite lookup_insert_eq. eexists. split; [done|]. right.
      rewrite Hc in Hc'. injection Hc' as ->.
      destruct Hcases as [->| ->]; done.
    + exists c'. by rewrite lookup_insert_ne.
Qed.

Lemma reachable_copiesCanonical (s : Store) : reachable s → copiesCanonical s.
Proof.
  induction 1 as [|req s Hs IH _].
  - intros code u x Hu. simpl in Hu. by rewrite lookup_empty in Hu.
  - apply serve_copiesCanonical; [by apply reachable_complaintKeys|done].
Qed.

(** X6: in every reachable store each complaint of a user's list has a
    canonical entry under its ID; the entry is that complaint or its
    resolved copy, so a copy that shows resolved has a resolved entry, and
    the entry carries the secret code of the user that holds the copy. *)
Theorem embedded_copy_has_canonical_entry (s : Store) (code : string) (u : User)
    (x : Complaint) :
  reachable s →
  users s !! code = Some u →
  x ∈ User_Complaints u →
  ∃ c, complaints s !! Complaint_ID x = Some c ∧
       (c = x ∨ c = resolved x) ∧
       (Complaint_Resolved x = true → c = x) ∧
       Complaint_SecretCode c = code.
Proof.
  intros Hs Hu Hx.
  destruct (reachable_copiesCanonical s Hs code u x Hu Hx) as (c & Hc & Hcases).
  destruct (reachable_usersKeyed s Hs code u Hu) as [_ Hlist].
  exists c. split_and!; [done..| |].
  - intros Hres. destruct Hcases as [->| ->]; [done|by apply resolved_id].
  - rewrite <- (Hlist x Hx). by destruct Hcases as [->| ->].
Qed.

Lemma embedded_copy_has_canonical_entry_witness :
  ∃ c, complaints Sample.store2 !! "1" = Some c ∧ Complaint_SecretCode c = "c1".
Proof.
  destruct (embedded_copy_has_canonical_entry Sample.store2 "c1"
              (mkUser "1" "c1" "A" "user@example.org"
                 [mkComplaint "1" "Noise" "Loud at night" 5 false "c1"])
              (mkComplaint "1" "Noise" "Loud at night" 5 false "c1")
              sample_store2_reachable)
    as (c & Hc & _ & _ & Hcode).
  - vm_compute. reflexivity.
  - apply list_elem_of_singleton. reflexivity.
  - exists c. split; [exact Hc|exact Hcode].
Defined.

(** ** The administrator's list against the canonical table *)

Lemma map_to_list_insert_Some {A : Type} (m : gmap string A) (i : string) (x y : A) :
  m !! i = Some y →
  map_to_list (<[i := x]> m) ≡ₚ (i, x) :: map_to_list (delete i m).
Proof.
  intros Hi. rewrite <- insert_delete_eq.
  apply map_to_list_insert, lookup_delete_eq.
Qed.

Lemma serve_listedOnce (req : Request) (s : Store) :
  complaintKeys s → listedOnce s → listedOnce (serve req s).2.
Proof.
  unfold listedOnce, embeddedComplaints. intros Hkeys Hinv. by_request req.
  - unfold registerHandler.
    destruct (Decode unmarshalUser b).1 as [e|newUser]; simpl; [done|].
    destruct (users s !! User_SecretCode newUser) eqn:Hfresh; simpl; [done|].
    by rewrite map_to_list_insert by done.
  - pose proof (complaintKeys_fresh s Hkeys) as Hfresh.
    unfold submitComplaintHandler.
    destruct (Decode unmarshalComplaint b).1 as [e|newComplaint]; simpl; [done|].
    destruct (users s !! Complaint_SecretCode newComplaint) as [user|] eqn:Huser;
      simpl; [|done].
    rewrite (map_to_list_insert_Some _ _ _ user) by done.
    rewrite map_to_list_insert by done.
    rewrite <- (map_to_list_delete _ _ _ Huser) in Hinv.
    rewrite bind_cons, fmap_app in Hinv. rewrite bind_cons, !fmap_app.
    simpl in *. rewrite fmap_app, <- (assoc_L app). simpl.
    rewrite <- Permutation_middle. by constructor.
  - destruct (resolveComplaintHandler_cases b s) as [[_ ->]|(id & c & _ & _ & Hc & ->)];
      [done|]. simpl.
    rewrite (map_to_list_insert_Some _ _ _ c) by done.
    rewrite <- (map_to_list_delete _ _ _ Hc) in Hinv. by rewrite Hinv.
Qed.

Lemma reachable_listedOnce (s : Store) : reachable s → listedOnce s.
Proof.
  induction 1 as [|req s Hs IH _].
  - unfold listedOnce, embeddedComplaints. simpl. by rewrite !map_to_list_empty.
  - apply serve_listedOnce; [by apply reachable_complaintKeys|done].
Qed.

(** X7: in every reachable store the list the administrator gets holds
    every canonical complaint exactly once: its IDs are the keys of the
    canonical table up to order, without repetition, and it is as long as
    the table is large. *)
Theorem getAllComplaintsForAdminHandler_lists_each_once (s : Store)
    (order : list (string * User)) (body : Body) :
  reachable s →
  order ≡ₚ map_to_list (users s) →
  (Decode unmarshalSecretCode body).1 = inr "admin" →
  ∃ cs,
    (getAllComplaintsForAdminHandler order body s).1 =
      mkResponse 200 (ComplaintsBody cs) ∧
    Complaint_ID <$> cs ≡ₚ (map_to_list (complaints s)).*1 ∧
    NoDup (Complaint_ID <$> cs) ∧
    length cs = size (complaints s).
Proof.
  intros Hs Hperm Hd. pose proof (reachable_listedOnce s Hs) as Hinv.
  unfold listedOnce, embeddedComplaints in Hinv.
  rewrite (getAllComplaintsForAdminHandler_admin order body s Hd). simpl.
  eexists. split; [done|].
  assert (Hids : Complaint_ID <$> (order ≫= λ kv, User_Complaints kv.2)
                 ≡ₚ (map_to_list (complaints s)).*1) by by rewrite Hperm.
  split_and!.
  - done.
  - rewrite Hids. apply NoDup_fst_map_to_list.
  - rewrite <- (length_fmap Complaint_ID), Hids, length_fmap.
    apply length_map_to_list.
Qed.

Lemma getAllComplaintsForAdminHandler_lists_each_once_witness :
  ∃ cs,
    (getAllComplaintsForAdminHandler (map_to_list (users Sample.store2))
       (Sample.secretCodeBody "admin") Sample.store2).1 =
      mkResponse 200 (ComplaintsBody cs) ∧
    length cs = 1%nat.
Proof.
  destruct (getAllComplaintsForAdminHandler_lists_each_once Sample.store2
              (map_to_list (users Sample.store2)) (Sample.secretCodeBody "admin")
              sample_store2_reachable)
    as (cs & Hresp & _ & _ & Hlen).
  - reflexivity.
  - vm_compute. reflexivity.
  - exists cs. split; [exact Hresp|exact Hlen].
Defined.

(** ** Which requests change the store, and what every answer looks like *)

(** X8: the store changes only when [registerHandler] answers 200, when
    [submitComplaintHandler] answers 201 or when [resolveComplaintHandler]
    answers 204; every other answer, so every error and every answer of
    the four reading handlers, leaves the store as it was. *)
Theorem store_changes_only_on_success (req : Request) (s : Store) :
  (serve req s).2 = s ∨
  (∃ body, req = Register body ∧ statusCode (serve req s).1 = 200) ∨
  (∃ body, req = SubmitComplaint body ∧ statusCode (serve req s).1 = 201) ∨
  (∃ body, req = ResolveComplaint body ∧ statusCode (serve req s).1 = 204).
Proof.
  by_request req; try by left.
  - unfold registerHandler. repeat case_match; simpl; try by left.
    right. left. eauto.
  - unfold submitComplaintHandler. repeat case_match; simpl; try by left.
    right. right. left. eauto.
  - destruct (resolveComplaintHandler_cases b s) as [[_ ->]|(id & c & _ & _ & Hc & ->)];
      [by left|].
    right. right. right. eauto.
Qed.

(** X9: every handler answers with one of its own status codes, and the
    kind of body goes with the code: an entity with 200, no body with 201
    and 204, the error object with 400, 401 and 404. *)
Theorem serve_answersOf (req : Request) (s : Store) :
  (statusCode (serve req s).1, kindOf (payload (serve req s).1)) ∈ answersOf req.
Proof.
  destruct req as [b|b|b|b|order b|b|b]; simpl.
  - unfold loginHandler. repeat case_match; simpl; set_solver.
  - unfold registerHandler. repeat case_match; simpl; set_solver.
  - unfold submitComplaintHandler. repeat case_match; simpl; set_solver.
  - unfold getAllComplaintsForUserHandler. repeat case_match; simpl; set_solver.
  - unfold getAllComplaintsForAdminHandler. repeat case_match; simpl; set_solver.
  - unfold viewComplaintHandler. repeat case_match; simpl; set_solver.
  - unfold resolveComplaintHandler. repeat case_match; simpl; set_solver.
Qed.

(** ** Bodies that do not decode *)

Lemma Decode_inl {A : Type} (unmarshal : json → option A) (r : Body) (err : decodeError) :
  (readValue r).1 = inl err → (Decode unmarshal r).1 = inl err.
Proof.
  unfold Decode. destruct (readValue r) as [[e|j] r']; simpl; [|done].
  by intros [= ->].
Qed.

Lemma resolveComplaintHandler_first_decode (body : Body) (s : Store) (err : decodeError) :
  (Decode unmarshalID body).1 = inl err →
  resolveComplaintHandler body s = (writeError (ErrorOf err) StatusBadRequest, s).
Proof.
  unfold resolveComplaintHandler.
  destruct (Decode unmarshalID body) as [[e|id] body']; simpl; [|done].
  by intros [= ->].
Qed.

(** X10: on every route, a body in which the decoder finds no value (it is
    empty, holds only white space, or starts with bytes that are not JSON)
    is answered 400 with the decoder's error, and the store stays as it
    was. *)
Theorem serve_undecodable_body (req : Request) (s : Store) (err : decodeError) :
  (readValue (requestBody req)).1 = inl err →
  serve req s = (mkResponse 400 (ErrorBody (ErrorOf err)), s).
Proof.
  intros Hread. destruct req as [b|b|b|b|order b|b|b]; simpl in *.
  - unfold loginHandler. by rewrite (Decode_inl _ _ _ Hread).
  - unfold registerHandler. by rewrite (Decode_inl _ _ _ Hread).
  - unfold submitComplaintHandler. by rewrite (Decode_inl _ _ _ Hread).
  - unfold getAllComplaintsForUserHandler. by rewrite (Decode_inl _ _ _ Hread).
  - unfold getAllComplaintsForAdminHandler. by rewrite (Decode_inl _ _ _ Hread).
  - unfold viewComplaintHandler. by rewrite (Decode_inl _ _ _ Hread).
  - by rewrite (resolveComplaintHandler_first_decode _ _ err (Decode_inl _ _ _ Hread)).
Qed.

Lemma serve_undecodable_body_witness :
  serve (Register []) Sample.store2 =
    (mkResponse 400 (ErrorBody (ErrorOf EOF)), Sample.store2) ∧
  serve (SubmitComplaint [[Space]; [Space; Invalid]]) Sample.store2 =
    (mkResponse 400 (ErrorBody (ErrorOf SyntaxError)), Sample.store2).
Proof.
  split.
  - apply (serve_undecodable_body (Register []) Sample.store2 EOF). reflexivity.
  - apply (serve_undecodable_body (SubmitComplaint [[Space]; [Space; Invalid]])
             Sample.store2 SyntaxError).
    reflexivity.
Defined.

(** X11: on every route, a body whose first JSON value is neither an
    object nor [null] (a string, a number, a boolean, an array) is
    answered 400 with the decoder's type error, and the store stays as it
    was. *)
Theorem serve_body_not_an_object (req : Request) (s : Store) (j : json) :
  (readValue (requestBody req)).1 = inr j →
  match j with JObj _ | JNull => False | _ => True end →
  serve req s = (mkResponse 400 (ErrorBody (ErrorOf UnmarshalTypeError)), s).
Proof.
  intros Hread Hj.
  assert (Hdec : ∀ (A : Type) (setField : A → string * json → option A) (v : A),
            (Decode (λ j, unmarshalObject setField j v) (requestBody req)).1 =
              inl UnmarshalTypeError).
  { intros A setField v. unfold Decode.
    destruct (readValue (requestBody req)) as [[e|j'] r']; simpl in *; [done|].
    injection Hread as Heq. subst j'. by destruct j. }
  destruct req as [b|b|b|b|order b|b|b]; simpl in *.
  - unfold loginHandler, unmarshalSecretCode. by rewrite Hdec.
  - unfold registerHandler, unmarshalUser. by rewrite Hdec.
  - unfold submitComplaintHandler, unmarshalComplaint. by rewrite Hdec.
  - unfold getAllComplaintsForUserHandler, unmarshalSecretCode. by rewrite Hdec.
  - unfold getAllComplaintsForAdminHandler, unmarshalSecretCode. by rewrite Hdec.
  - unfold viewComplaintHandler, unmarshalID. by rewrite Hdec.
  - apply resolveComplaintHandler_first_decode. unfold unmarshalID. apply Hdec.
Qed.

Lemma serve_body_not_an_object_witness :
  serve (ViewComplaint [[Value (JStr "1")]]) Sample.store2 =
    (mkResponse 400 (ErrorBody (ErrorOf UnmarshalTypeError)), Sample.store2) ∧
  serve (Login [[Value (JArr [JStr "c1"])]]) Sample.store2 =
    (mkResponse 400 (ErrorBody (ErrorOf UnmarshalTypeError)), Sample.store2).
Proof.
  split.
  - apply (serve_body_not_an_object (ViewComplaint [[Value (JStr "1")]])
             Sample.store2 (JStr "1")); [reflexivity|exact I].
  - apply (serve_body_not_an_object (Login [[Value (JArr [JStr "c1"])]])
             Sample.store2 (JArr [JStr "c1"])); [reflexivity|exact I].
Defined.

Lemma Decode_rest {A : Type} (unmarshal : json → option A) (r : Body) :
  (Decode unmarshal r).2 = (readValue r).2.
Proof.
  unfold Decode. destruct (readValue r) as [[e|j] r']; simpl; [done|].
  by destruct (unmarshal j).
Qed.

(** A decoder takes the whole of a body that arrives in one read. *)
Lemma readValue_single_read (buf : list token) : (readValue [buf]).2 = [].
Proof. simpl. by destruct (scanBuf buf). Qed.

(** X12: a resolveComplaint request whose whole body arrives in one read
    is never carried out, whatever the body holds: the answer is 400 and
    the store stays as it was.  Either the first decoder fails, or it keeps
    the whole read and the second decoder finds the body at its end. *)
Theorem resolveComplaintHandler_single_read (buf : list token) (s : Store) :
  statusCode (resolveComplaintHandler [buf] s).1 = 400 ∧
  (resolveComplaintHandler [buf] s).2 = s.
Proof.
  pose proof (Decode_rest unmarshalID [buf]) as Hrest.
  rewrite readValue_single_read in Hrest.
  unfold resolveComplaintHandler.
  destruct (Decode unmarshalID [buf]) as [[e|id] body']; simpl in *; [done|].
  by rewrite Hrest.
Qed.

(** ** Registration, login and the user's list *)

(** X13: a secret code that keys no user cannot log in (404); once a
    register request with it has been answered, a login with it answers
    with the very record the registration answered with, and the user's
    list of complaints is empty. *)
Theorem register_then_login (s : Store) (body bodyL : Body) (newUser : User) :
  (Decode unmarshalUser body).1 = inr newUser →
  users s !! User_SecretCode newUser = None →
  (Decode unmarshalSecretCode bodyL).1 = inr (User_SecretCode newUser) →
  let s1 := (registerHandler body s).2 in
  ∃ u,
    loginHandler bodyL s = (mkResponse 404 (ErrorBody (Literal "User not found")), s) ∧
    (registerHandler body s).1 = mkResponse 200 (UserBody u) ∧
    loginHandler bodyL s1 = (mkResponse 200 (UserBody u), s1) ∧
    getAllComplaintsForUserHandler bodyL s1 = (mkResponse 200 (ComplaintsBody []), s1).
Proof.
  intros Hd Hfresh HdL s1. subst s1.
  rewrite (registerHandler_ok body s newUser Hd Hfresh). simpl.
  eexists. split_and!.
  - unfold loginHandler. by rewrite HdL, Hfresh.
  - reflexivity.
  - unfold loginHandler. rewrite HdL. simpl. by rewrite lookup_insert_eq.
  - unfold getAllComplaintsForUserHandler. rewrite HdL. simpl.
    by rewrite lookup_insert_eq.
Qed.

Lemma register_then_login_witness :
  let s1 := (registerHandler (Sample.registerBody "c2" "B") Sample.store2).2 in
  loginHandler (Sample.secretCodeBody "c2") Sample.store2 =
    (mkResponse 404 (ErrorBody (Literal "User not found")), Sample.store2) ∧
  ∃ u, loginHandler (Sample.secretCodeBody "c2") s1 = (mkResponse 200 (UserBody u), s1).
Proof.
  destruct (register_then_login Sample.store2 (Sample.registerBody "c2" "B")
              (Sample.secretCodeBody "c2")
              (mkUser "" "c2" "B" "user@example.org" []))
    as (u & Hbefore & _ & Hafter & _).
  - vm_compute. reflexivity.
  - vm_compute. reflexivity.
  - vm_compute. reflexivity.
  - split; [exact Hbefore|]. exists u. exact Hafter.
Defined.

(** X14: [getAllComplaintsForUserHandler] and [loginHandler] go together
    on every body and store: where login answers with a user, the list
    request answers with that user's complaints, and where login fails,
    the list request fails with the same answer. *)
Theorem getAllComplaintsForUserHandler_follows_login (body : Body) (s : Store) :
  match payload (loginHandler body s).1 with
  | UserBody u =>
      (loginHandler body s).1 = mkResponse 200 (UserBody u) ∧
      (getAllComplaintsForUserHandler body s).1 =
        mkResponse 200 (ComplaintsBody (User_Complaints u))
  | _ => (getAllComplaintsForUserHandler body s).1 = (loginHandler body s).1
  end.
Proof.
  unfold loginHandler, getAllComplaintsForUserHandler.
  destruct (Decode unmarshalSecretCode body).1 as [e|code]; simpl; [done|].
  by destruct (users s !! code).
Qed.

(** X15: a successful submission puts the complaint, with the fields of
    the payload and the generated ID, at the end of the owner's list and
    leaves the owner's ID, name and email and every other user's record as
    they were. *)
Theorem submitComplaintHandler_appends (s : Store) (body bodyU : Body)
    (newComplaint : Complaint) (user : User) :
  (Decode unmarshalComplaint body).1 = inr newComplaint →
  users s !! Complaint_SecretCode newComplaint = Some user →
  (Decode unmarshalSecretCode bodyU).1 = inr (Complaint_SecretCode newComplaint) →
  let s' := (submitComplaintHandler body s).2 in
  let c := mkComplaint (generateUniqueID s) (Complaint_Title newComplaint)
             (Complaint_Summary newComplaint) (Complaint_Severity newComplaint)
             (Complaint_Resolved newComplaint) (Complaint_SecretCode newComplaint) in
  (getAllComplaintsForUserHandler bodyU s').1 =
    mkResponse 200 (ComplaintsBody (User_Complaints user ++ [c])) ∧
  (loginHandler bodyU s').1 =
    mkResponse 200 (UserBody (mkUser (User_ID user) (User_SecretCode user)
                                (User_Name user) (User_Email user)
                                (User_Complaints user ++ [c]))) ∧
  complaints s' !! generateUniqueID s = Some c ∧
  (∀ code, code ≠ Complaint_SecretCode newComplaint →
           users s' !! code = users s !! code).
Proof.
  intros Hd Hu HdU s' c. subst s'.
  rewrite (submitComplaintHandler_ok body s newComplaint user Hd Hu). simpl.
  split_and!.
  - unfold getAllComplaintsForUserHandler. rewrite HdU. simpl.
    by rewrite lookup_insert_eq.
  - unfold loginHandler. rewrite HdU. simpl. by rewrite lookup_insert_eq.
  - apply lookup_insert_eq.
  - intros code Hne. by rewrite lookup_insert_ne.
Qed.

Lemma submitComplaintHandler_appends_witness :
  (getAllComplaintsForUserHandler (Sample.secretCodeBody "c1")
     (submitComplaintHandler (Sample.complaintBody "c1" 4) Sample.store2).2).1 =
    mkResponse 200
      (ComplaintsBody [mkComplaint "1" "Noise" "Loud at night" 5 false "c1";
                       mkComplaint "2" "Noise" "Loud at night" 4 false "c1"]).
Proof.
  apply (submitComplaintHandler_appends Sample.store2 (Sample.complaintBody "c1" 4)
           (Sample.secretCodeBody "c1")
           (mkComplaint "" "Noise" "Loud at night" 4 false "c1")
           (mkUser "1" "c1" "A" "user@example.org"
              [mkComplaint "1" "Noise" "Loud at night" 5 false "c1"])).
  - vm_compute. reflexivity.
  - vm_compute. reflexivity.
  - vm_compute. reflexivity.
Defined.

(** ** Resolving twice, and viewing *)

(** X16: resolving is idempotent: a resolveComplaint request that was
    answered 204, sent again, is answered 204 again and leaves the store
    as the first one left it. *)
Theorem resolveComplaintHandler_idempotent (s : Store) (body : Body) :
  statusCode (resolveComplaintHandler body s).1 = 204 →
  let s' := (resolveComplaintHandler body s).2 in
  resolveComplaintHandler body s' = (mkResponse 204 NoBody, s').
Proof.
  intros Hstatus s'. subst s'.
  destruct (resolveComplaintHandler_cases body s)
    as [[Hne _]|(id & c & Hid & Hadmin & Hc & Heq)]; [done|].
  rewrite Heq. simpl.
  destruct (resolveComplaintHandler_cases body
              (mkStore (users s) (<[id := resolved c]> (complaints s))))
    as [[Hne Hs]|(id' & c' & Hid' & _ & Hc' & ->)].
  - exfalso. apply Hne. unfold resolveComplaintHandler.
    destruct (Decode unmarshalID body) as [[e|id0] body']; simpl in *; [done|].
    injection Hid as ->. rewrite Hadmin. simpl. by rewrite lookup_insert_eq.
  - simpl in *. rewrite Hid in Hid'. injection Hid' as <-.
    rewrite lookup_insert_eq in Hc'. injection Hc' as <-.
    by rewrite insert_insert_eq.
Qed.

Lemma resolveComplaintHandler_idempotent_witness :
  let s' := (resolveComplaintHandler (Sample.resolveBodySplit "1" "admin")
               Sample.store2).2 in
  resolveComplaintHandler (Sample.resolveBodySplit "1" "admin") s' =
    (mkResponse 204 NoBody, s').
Proof.
  apply (resolveComplaintHandler_idempotent Sample.store2
           (Sample.resolveBodySplit "1" "admin")).
  vm_compute. reflexivity.
Defined.

(** X17: in a reachable store with [n] complaints, viewComplaint answers
    200 exactly for the IDs "1" to the decimal of [n], with the canonical
    entry, whose ID is the one asked for; for any other ID it answers 404
    "Complaint not found". *)
Theorem viewComplaintHandler_succeeds_on_1_to_n (s : Store) (body : Body) (id : string) :
  reachable s →
  (Decode unmarshalID body).1 = inr id →
  ((∃ k : nat, (1 ≤ k ≤ size (complaints s))%nat ∧ id = pretty k) →
   ∃ c, (viewComplaintHandler body s).1 = mkResponse 200 (ComplaintBody c) ∧
        complaints s !! id = Some c ∧ Complaint_ID c = id) ∧
  (¬ (∃ k : nat, (1 ≤ k ≤ size (complaints s))%nat ∧ id = pretty k) →
   (viewComplaintHandler body s).1 =
     mkResponse 404 (ErrorBody (Literal "Complaint not found"))).
Proof.
  intros Hs Hd. pose proof (reachable_complaintKeys s Hs id) as Hkeys. split.
  - intros [c Hc]%Hkeys. exists c.
    destruct (reachable_copiesExist s Hs id c Hc) as (Hid & u & _ & Hu & _).
    by erewrite viewComplaintHandler_ok.
  - intros Hnot. unfold viewComplaintHandler. rewrite Hd.
    destruct (complaints s !! id) eqn:Hc; [|done].
    exfalso. apply Hnot, Hkeys. eauto.
Qed.

Lemma viewComplaintHandler_succeeds_on_1_to_n_witness :
  (∃ c, (viewComplaintHandler (Sample.idBody "1") Sample.store2).1 =
          mkResponse 200 (ComplaintBody c)) ∧
  (viewComplaintHandler (Sample.idBody "c1") Sample.store2).1 =
    mkResponse 404 (ErrorBody (Literal "Complaint not found")).
Proof.
  split.
  - destruct (viewComplaintHandler_succeeds_on_1_to_n Sample.store2
                (Sample.idBody "1") "1" sample_store2_reachable) as [Hyes _].
    + vm_compute. reflexivity.
    + destruct Hyes as (c & Hc & _).
      * exists 1%nat. split; [vm_compute; lia|reflexivity].
      * exists c. exact Hc.
  - destruct (viewComplaintHandler_succeeds_on_1_to_n Sample.store2
                (Sample.idBody "c1") "c1" sample_store2_reachable) as [_ Hno].
    + vm_compute. reflexivity.
    + apply Hno. intros (k & Hk & Heq).
      assert (k = 1%nat) as -> by (vm_compute in Hk; lia).
      discriminate Heq.
Defined.

(** ** Payloads without a secret code *)

Lemma setUserField_SecretCode (u u' : User) (kv : string * json) :
  setUserField u kv = Some u' →
  keyIs kv.1 "secretCode" = false →
  User_SecretCode u' = User_SecretCode u.
Proof.
  destruct kv as [key j]. unfold setUserField. simpl. intros Hset Hkey.
  repeat case_match; simplify_option_eq; done.
Qed.

Lemma unmarshalUser_no_secretCode (members : list (string * json)) (u : User) :
  unmarshalUser (JObj members) = Some u →
  hasMember "secretCode" members = false →
  User_SecretCode u = "".
Proof.
  unfold unmarshalUser, unmarshalObject, hasMember.
  assert (Hzero : User_SecretCode zeroUser = "") by done.
  revert Hzero. generalize zeroUser as u0.
  induction members as [|kv members IH]; intros u0 Hu0 Hfold Hnone; simpl in *.
  - by injection Hfold as <-.
  - apply orb_false_elim in Hnone as [Hkv Hnone].
    destruct (setUserField u0 kv) as [u1|] eqn:Hset; simpl in Hfold.
    + eapply (IH u1); [|done..]. by rewrite (setUserField_SecretCode u0 u1 kv).
    + by rewrite foldl_mbind_None in Hfold.
Qed.

(** X18: [registerHandler] asks for no secret code.  A payload that
    decodes and has no [secretCode] member registers the user under the
    empty secret code when that is free, and is turned down as a duplicate
    when a user is already stored under the empty secret code. *)
Theorem registerHandler_without_secret_code (s : Store) (body : Body)
    (members : list (string * json)) (newUser : User) :
  (readValue body).1 = inr (JObj members) →
  hasMember "secretCode" members = false →
  (Decode unmarshalUser body).1 = inr newUser →
  (users s !! "" = None →
   ∃ u, registerHandler body s =
          (mkResponse 200 (UserBody u), mkStore (<["" := u]> (users s)) (complaints s)) ∧
        User_SecretCode u = "" ∧ User_ID u = generateUniqueID s) ∧
  (is_Some (users s !! "") →
   registerHandler body s =
     (mkResponse 400 (ErrorBody (Literal "Secret code already in use")), s)).
Proof.
  intros Hread Hnone Hd.
  assert (Hcode : User_SecretCode newUser = "").
  { apply Decode_inr in Hd as (j & Hj & Hun). rewrite Hread in Hj.
    injection Hj as <-. by eapply unmarshalUser_no_secretCode. }
  split.
  - intros Hfree. rewrite <- Hcode in Hfree.
    rewrite (registerHandler_ok body s newUser Hd Hfree). simpl. rewrite Hcode.
    by eexists.
  - intros [u Hu]. rewrite <- Hcode in Hu.
    by rewrite (registerHandler_taken body s newUser u Hd Hu).
Qed.

Lemma registerHandler_without_secret_code_witness :
  ∃ u, users (registerHandler [[Value (JObj [("name", JStr "N")])]] Sample.store2).2 !! ""
         = Some u ∧
       User_SecretCode u = "".
Proof.
  destruct (registerHandler_without_secret_code Sample.store2
              [[Value (JObj [("name", JStr "N")])]] [("name", JStr "N")]
              (mkUser "" "" "N" "" [])) as [Hfree _].
  - reflexivity.
  - reflexivity.
  - vm_compute. reflexivity.
  - destruct Hfree as (u & Hreg & Hcode & _).
    + vm_compute. reflexivity.
    + exists u. rewrite Hreg. simpl. split; [apply lookup_insert_eq|exact Hcode].
Defined.

(** ** User IDs against complaint IDs *)

Lemma serve_userIDsBounded (req : Request) (s : Store) :
  complaintKeys s → userIDsBounded s → userIDsBounded (serve req s).2.
Proof.
  intros Hkeys Hinv. by_request req.
  - unfold registerHandler.
    destruct (Decode unmarshalUser b).1 as [e|newUser]; simpl; [done|].
    destruct (users s !! User_SecretCode newUser) eqn:Hfresh; simpl; [done|].
    intros code u; simpl.
    intros [[<- <-]|[_ Hu]]%lookup_insert_Some; [|by eapply Hinv].
    exists (size (complaints s) + 1)%nat. split; [lia|done].
  - pose proof (complaintKeys_fresh s Hkeys) as Hfresh.
    unfold submitComplaintHandler.
    destruct (Decode unmarshalComplaint b).1 as [e|newComplaint]; simpl; [done|].
    destruct (users s !! Complaint_SecretCode newComplaint) as [user|] eqn:Huser;
      simpl; [|done].
    intros code u; simpl. rewrite map_size_insert_None by done.
    intros [[<- <-]|[_ Hu]]%lookup_insert_Some; simpl.
    + destruct (Hinv _ _ Huser) as (k & Hk & ->). exists k. split; [lia|done].
    + destruct (Hinv _ _ Hu) as (k & Hk & ->). exists k. split; [lia|done].
  - destruct (resolveComplaintHandler_cases b s) as [[_ ->]|(id & c & _ & _ & Hc & ->)];
      [done|].
    intros code u Hu; simpl in *. rewrite map_size_insert_Some by eauto.
    by eapply Hinv.
Qed.

Lemma reachable_userIDsBounded (s : Store) : reachable s → userIDsBounded s.
Proof.
  induction 1 as [|req s Hs IH _].
  - intros code u Hu. simpl in Hu. by rewrite lookup_empty in Hu.
  - apply serve_userIDsBounded; [by apply reachable_complaintKeys|done].
Qed.

(** X19: in every reachable store the ID of a user is the ID of a
    canonical complaint or the ID the next complaint will get: user IDs are
    drawn from the complaint IDs, and a user whose ID is not yet the ID of
    a complaint shares it with the next complaint submitted. *)
Theorem user_ID_is_a_complaint_ID (s : Store) (code : string) (u : User) :
  reachable s →
  users s !! code = Some u →
  is_Some (complaints s !! User_ID u) ∨ User_ID u = generateUniqueID s.
Proof.
  intros Hs Hu.
  destruct (reachable_userIDsBounded s Hs code u Hu) as (k & Hk & Hid).
  destruct (decide (k = size (complaints s) + 1)%nat) as [->|Hne]; [by right|].
  left. apply (reachable_complaintKeys s Hs). exists k. split; [lia|done].
Qed.

Lemma user_ID_is_a_complaint_ID_witness :
  is_Some (complaints Sample.store2 !! "1") ∨ "1" = generateUniqueID Sample.store2.
Proof.
  apply (user_ID_is_a_complaint_ID Sample.store2 "c1"
           (mkUser "1" "c1" "A" "user@example.org"
              [mkComplaint "1" "Noise" "Loud at night" 5 false "c1"])
           sample_store2_reachable).
  vm_compute. reflexivity.
Defined.

(** ** Counting complaints and users *)

Lemma serve_size_users (req : Request) (s : Store) :
  size (users (serve req s).2) =
    (size (users s) + if registered (req, (serve req s).1) then 1 else 0)%nat.
Proof.
  destruct req as [b|b|b|b|order b|b|b]; unfold registered; simpl;
    autorewrite with read_only; try lia.
  - unfold registerHandler.
    destruct (Decode unmarshalUser b).1 as [e|newUser]; simpl; [lia|].
    destruct (users s !! User_SecretCode newUser) eqn:Hfresh; simpl; [lia|].
    rewrite map_size_insert_None by done. lia.
  - unfold submitComplaintHandler.
    destruct (Decode unmarshalComplaint b).1 as [e|newComplaint]; simpl; [lia|].
    destruct (users s !! Complaint_SecretCode newComplaint) as [user|] eqn:Huser;
      simpl; [|lia].
    rewrite map_size_insert_Some by eauto. lia.
  - destruct (resolveComplaintHandler_cases b s) as [[_ ->]|(id & c & _ & _ & Hc & ->)];
      simpl; lia.
Qed.

Lemma serve_size_complaints_created (req : Request) (s : Store) :
  complaintKeys s →
  size (complaints (serve req s).2) =
    (size (complaints s) + if created (req, (serve req s).1) then 1 else 0)%nat.
Proof.
  intros Hkeys.
  destruct (isSubmit req) eqn:Hreq.
  - destruct req as [b|b|b|b|order b|b|b]; try done. unfold created. simpl.
    pose proof (complaintKeys_fresh s Hkeys) as Hfresh.
    unfold submitComplaintHandler.
    destruct (Decode unmarshalComplaint b).1 as [e|newComplaint]; simpl; [lia|].
    destruct (users s !! Complaint_SecretCode newComplaint) as [user|] eqn:Huser;
      simpl; [|lia].
    rewrite map_size_insert_None by done. lia.
  - rewrite serve_size_complaints by done. unfold created. simpl. rewrite Hreq.
    simpl. lia.
Qed.

Lemma run_sizes (reqs : list Request) (s : Store) :
  complaintKeys s →
  size (complaints (run reqs s)) =
    (size (complaints s) + length (filter created (answersTo reqs s)))%nat ∧
  size (users (run reqs s)) =
    (size (users s) + length (filter registered (answersTo reqs s)))%nat.
Proof.
  revert s. induction reqs as [|req reqs IH]; intros s Hkeys.
  - simpl. lia.
  - change (run (req :: reqs) s) with (run reqs (serve req s).2).
    change (answersTo (req :: reqs) s) with
      ((req, (serve req s).1) :: answersTo reqs (serve req s).2).
    destruct (IH _ (serve_complaintKeys req s Hkeys)) as [-> ->].
    rewrite (serve_size_complaints_created req s Hkeys), (serve_size_users req s).
    rewrite !filter_cons.
    destruct (decide (created _)) as [Hc|Hc], (decide (registered _)) as [Hr|Hr];
      simpl;
      try (apply Is_true_true in Hc; rewrite Hc);
      try (apply Is_true_false in Hc; rewrite Hc);
      try (apply Is_true_true in Hr; rewrite Hr);
      try (apply Is_true_false in Hr; rewrite Hr);
      lia.
Qed.

(** X20: whatever requests the server has served since it started, the
    canonical table holds as many complaints as submissions were answered
    201, and the users table as many users as registrations were answered
    200. *)
Theorem tables_count_successes (reqs : list Request) :
  size (complaints (run reqs emptyStore)) =
    length (filter created (answersTo reqs emptyStore)) ∧
  size (users (run reqs emptyStore)) =
    length (filter registered (answersTo reqs emptyStore)).
Proof.
  destruct (run_sizes reqs emptyStore emptyStore_complaintKeys) as [-> ->].
  simpl. by rewrite !map_size_empty.
Qed.

(** ** Resolution against the copy in the owner's list *)

Lemma NoDup_fmap_elem_eq {A B : Type} (f : A → B) (l : list A) (x y : A) :
  NoDup (f <$> l) → x ∈ l → y ∈ l → f x = f y → x = y.
Proof.
  induction l as [|a l IH]; [by intros _ ?%elem_of_nil|].
  rewrite fmap_cons, NoDup_cons. intros [Hnotin Hnodup].
  intros [->|Hx]%elem_of_cons [->|Hy]%elem_of_cons Heq; [done| | |by apply IH].
  - exfalso. apply Hnotin. rewrite Heq. by apply list_elem_of_fmap_2.
  - exfalso. apply Hnotin. rewrite <- Heq. by apply list_elem_of_fmap_2.
Qed.

(** In a reachable store no two complaints of a user's list have the same
    ID. *)
Lemma reachable_user_list_NoDup (s : Store) (code : string) (u : User) :
  reachable s →
  users s !! code = Some u →
  NoDup (Complaint_ID <$> User_Complaints u).
Proof.
  intros Hs Hu. pose proof (reachable_listedOnce s Hs) as Hinv.
  unfold listedOnce, embeddedComplaints in Hinv.
  rewrite <- (map_to_list_delete _ _ _ Hu), bind_cons, fmap_app in Hinv.
  pose proof (NoDup_fst_map_to_list (complaints s)) as Hnodup.
  rewrite <- Hinv in Hnodup. by apply NoDup_app in Hnodup as [Hnodup _].
Qed.

(** C2, as the code has it: when [resolveComplaintHandler] answers 204, it
    has set resolved = true on the canonical entry of that ID only and has
    left the users table alone, so the owner's list holds the one snapshot
    [x] of the complaint as before and [getAllComplaintsForUserHandler]
    answers for the owner with that list.  If the snapshot showed
    resolved = false before the resolution, every entry of the returned
    list with that ID still shows resolved = false, while
    [viewComplaintHandler] on the ID answers with resolved = true. *)
Theorem resolveComplaintHandler_stale_copy (s : Store) (body : Body) :
  reachable s →
  statusCode (resolveComplaintHandler body s).1 = 204 →
  let s' := (resolveComplaintHandler body s).2 in
  ∃ id c owner x,
    (Decode unmarshalID body).1 = inr id ∧
    (resolveComplaintHandler body s).1 = mkResponse 204 NoBody ∧
    complaints s !! id = Some c ∧
    complaints s' = <[id := resolved c]> (complaints s) ∧
    users s' = users s ∧
    users s !! Complaint_SecretCode c = Some owner ∧
    x ∈ User_Complaints owner ∧
    Complaint_ID x = id ∧
    resolved x = resolved c ∧
    (∀ y, y ∈ User_Complaints owner → Complaint_ID y = id → y = x) ∧
    (∀ b, (Decode unmarshalSecretCode b).1 = inr (Complaint_SecretCode c) →
          (getAllComplaintsForUserHandler b s').1 =
            mkResponse 200 (ComplaintsBody (User_Complaints owner)) ∧
          (getAllComplaintsForUserHandler b s').1 =
            (getAllComplaintsForUserHandler b s).1) ∧
    (Complaint_Resolved x = false →
     ∀ b cs, (Decode unmarshalSecretCode b).1 = inr (Complaint_SecretCode c) →
             (getAllComplaintsForUserHandler b s').1 =
               mkResponse 200 (ComplaintsBody cs) →
             x ∈ cs ∧
             ∀ y, y ∈ cs → Complaint_ID y = id → Complaint_Resolved y = false) ∧
    (∀ b, (Decode unmarshalID b).1 = inr id →
          ∃ c', (viewComplaintHandler b s').1 = mkResponse 200 (ComplaintBody c') ∧
                Complaint_ID c' = id ∧
                Complaint_Resolved c' = true).
Proof.
  intros Hs Hstatus s'.
  destruct (resolveComplaintHandler_leaves_user_copy s body Hs Hstatus)
    as (id & c & owner & x & Hid & Hresp & Hc & Hcs & Hus & Howner & Hx & Hxid &
        Hcopy & Hsame & Hlist & Hview & _).
  fold s' in Hcs, Hus, Hsame, Hlist, Hview.
  assert (Huniq : ∀ y, y ∈ User_Complaints owner → Complaint_ID y = id → y = x).
  { intros y Hy Hyid.
    eapply (NoDup_fmap_elem_eq Complaint_ID); [|exact Hy|exact Hx|congruence].
    by eapply reachable_user_list_NoDup. }
  exists id, c, owner, x. split_and!; try done.
  - intros b Hd. split; [by apply Hlist|by apply Hsame].
  - intros Hfalse b cs Hd Hresp'. rewrite (Hlist b Hd) in Hresp'.
    injection Hresp' as <-. split; [done|].
    intros y Hy Hyid. by rewrite (Huniq y Hy Hyid).
  - intros b Hd. exists (resolved c). split_and!; [by apply Hview| |done].
    simpl. by destruct (reachable_copiesExist s Hs id c Hc) as [-> _].
Qed.

(** User [c1] has submitted complaint "1" without a resolved member; the
    administrator resolves it with a body that arrives in two reads.  The
    user's list still shows it unresolved, the canonical entry shows it
    resolved. *)
Lemma resolveComplaintHandler_stale_copy_witness :
  let s' := (resolveComplaintHandler (Sample.resolveBodySplit "1" "admin")
               Sample.store2).2 in
  ∃ cs,
    (getAllComplaintsForUserHandler (Sample.secretCodeBody "c1") s').1 =
      mkResponse 200 (ComplaintsBody cs) ∧
    mkComplaint "1" "Noise" "Loud at night" 5 false "c1" ∈ cs ∧
    (∀ y, y ∈ cs → Complaint_ID y = "1" → Complaint_Resolved y = false) ∧
    ∃ c', (viewComplaintHandler (Sample.idBody "1") s').1 =
            mkResponse 200 (ComplaintBody c') ∧
          Complaint_Resolved c' = true.
Proof.
  intros s'.
  destruct (resolveComplaintHandler_stale_copy Sample.store2
              (Sample.resolveBodySplit "1" "admin") sample_store2_reachable)
    as (id & c & owner & x & Hid & _ & Hc & _ & _ & Howner & Hx & _ & _ & _ &
        Hlist & Hstale & Hview).
  - vm_compute. reflexivity.
  - vm_compute in Hid. injection Hid as <-.
    vm_compute in Hc. injection Hc as <-.
    vm_compute in Howner. injection Howner as <-.
    apply list_elem_of_singleton in Hx. subst x.
    destruct (Hlist (Sample.secretCodeBody "c1")) as [Hresp _];
      [vm_compute; reflexivity|].
    destruct (Hstale eq_refl (Sample.secretCodeBody "c1") _
                ltac:(vm_compute; reflexivity) Hresp) as [Hin Hall].
    eexists. split; [exact Hresp|]. split; [exact Hin|]. split; [exact Hall|].
    destruct (Hview (Sample.idBody "1")) as (c' & Hc' & _ & Hres);
      [vm_compute; reflexivity|].
    exists c'. split; assumption.
Defined.

(** C2, as stated, fails: user [c1] submits a complaint with
    ["resolved": true], the administrator resolves it, and the user's list
    shows it with resolved = true, not false. *)
Lemma resolveComplaintHandler_stale_copy_counterexample :
  let s := (serve (SubmitComplaint (Sample.resolvedComplaintBody "c1")) Sample.store1).2 in
  let s' := (resolveComplaintHandler (Sample.resolveBodySplit "1" "admin") s).2 in
  reachable s ∧
  (resolveComplaintHandler (Sample.resolveBodySplit "1" "admin") s).1 =
    mkResponse 204 NoBody ∧
  (getAllComplaintsForUserHandler (Sample.secretCodeBody "c1") s').1 =
    mkResponse 200 (ComplaintsBody [mkComplaint "1" "Noise" "" 0 true "c1"]) ∧
  (viewComplaintHandler (Sample.idBody "1") s').1 =
    mkResponse 200 (ComplaintBody (mkComplaint "1" "Noise" "" 0 true "c1")).
Proof.
  split_and!.
  - apply reachable_serve; [|exact I].
    apply reachable_serve; [|exact I].
    apply reachable_empty.
  - vm_compute. reflexivity.
  - vm_compute. reflexivity.
  - vm_compute. reflexivity.
Qed.
